(** * run_rotate.py: the interactive viewpoint session

    A shallow embedding of [src/run_rotate.py]: the global [state]
    dictionary, the key callback [Callbacks.__call__] (event dispatch
    followed by the per-frame pipeline), and the session start-up done by
    [run].

    Numbers.  [angle_y] and [angle_z] are Python floats that start at
    [90.] and [0.] and only ever move by [5]; every such value is an
    integer that binary64 holds exactly (up to 2^53), so both angles are
    kept in [Z] and Python's [%] with a positive modulus is [Z.modulo].
    [radius] moves by [0.05], which binary64 does not hold exactly, so it
    is kept as a primitive binary64 [float] and the arithmetic on it is the
    IEEE one.  Projected keypoints and mesh normals are binary64 as well.

    Collaborators that live outside this file (renderer, mesh and keypoint
    store, dataset, visibility oracle, warp engine, network) are the fields
    of one class, [Collab]; they are pure functions of their arguments. *)

From Stdlib Require Import ZArith Ascii String List Bool Lia Floats.
From stdpp Require Import base option list gmap strings pretty.

#[local] Open Scope string_scope.
#[local] Open Scope Z_scope.

(** ** Scalars *)

(** [ord c]: the key code of a character. *)
Definition ord (c : Ascii.ascii) : Z := Z.of_N (Ascii.N_of_ascii c).

(** The literal [0.05] as Python reads it: the nearest binary64. *)
Definition step_0_05 : float := 0x1.999999999999ap-5%float.

(** The frame size, [img_h = img_w = 128]. *)
Definition img_w : Z := 128.
Definition img_h : Z := 128.

(** [np.clip] on the integer-valued angles:
    [minimum (maximum x lo) hi]. *)
Definition clipZ (x lo hi : Z) : Z := Z.min (Z.max x lo) hi.

Module F.
(** binary64 helpers, written after numpy's scalar loops. *)

Definition is_nan (x : float) : bool := negb (PrimFloat.eqb x x).

(** [np.maximum] and [np.minimum] as [np.clip] uses them: a NaN first
    operand is returned as it is, otherwise the comparison decides. *)
Definition maximum (a b : float) : float :=
  if is_nan a then a else if PrimFloat.ltb b a then a else b.
Definition minimum (a b : float) : float :=
  if is_nan a then a else if PrimFloat.ltb a b then a else b.

(** [np.clip x lo hi], as numpy computes and documents it since 1.17:
    [minimum (maximum x lo) hi], which is [hi] whenever [lo > hi].  (The
    scalar loop of the releases before that tested the lower bound first
    and gave [lo] there.) *)
Definition clip (x lo hi : float) : float := minimum (maximum x lo) hi.

(** The float of a (small) integer constant. *)
Definition of_Z (z : Z) : float :=
  match z with
  | Z0 => PrimFloat.zero
  | Zpos _ => PrimFloat.of_uint63 (Uint63.of_Z z)
  | Zneg _ => PrimFloat.opp (PrimFloat.of_uint63 (Uint63.of_Z (- z)))
  end.

(** Truncation toward zero of a finite float, [None] on NaN and on the
    infinities (where Python's [int] raises). *)
Definition trunc (x : float) : option Z :=
  match Prim2SF x with
  | S754_zero _ => Some 0
  | S754_finite sgn m e =>
      let a := if 0 <=? e then Z.shiftl (Zpos m) e
               else Z.shiftr (Zpos m) (- e) in
      Some (if sgn then - a else a)
  | S754_infinity _ | S754_nan => None
  end.
End F.

(** ** Decimal formatting *)

(** [s.zfill(w)] for a digit string. *)
Definition zfill (w : nat) (s : string) : string :=
  String.concat "" (replicate (w - String.length s) "0") ++ s.

(** The format specification [03d]: sign-aware zero padding to width 3. *)
Definition fmt03d (n : Z) : string :=
  if n <? 0 then "-" ++ zfill 2 (pretty (Z.to_N (- n)))
  else zfill 3 (pretty (Z.to_N n)).

(** Does the string end in a slash? *)
Fixpoint ends_with_slash (s : string) : bool :=
  match s with
  | EmptyString => false
  | String c rest =>
      match rest with
      | EmptyString => Ascii.eqb c "/"
      | String _ _ => ends_with_slash rest
      end
  end.

(** [str(dir / name)] for a [pathlib] path [dir] and a file name [name].
    [dir] is given as the string of the path, as [str(args.dump_dir)]
    gives it: ["."] for the empty path, a trailing slash on a root (["/"],
    ["//"]) only.  [pathlib] puts no separator after a root and drops the
    empty path. *)
Definition path_join (dir name : string) : string :=
  if String.eqb dir "." then name
  else if ends_with_slash dir then dir ++ name
  else dir ++ "/" ++ name.

(** ** Images *)

(** An RGB pixel of a [uint8] image, an image as its rows, and a boolean
    mask of the same layout. *)
Definition Pixel : Type := Z * Z * Z.
Abbreviation Image := (list (list Pixel)).
Abbreviation Mask := (list (list bool)).

Definition Vec3 : Type := float * float * float.
Definition Point2 : Type := float * float.

(** The mesh attributes the callback touches. *)
Record TriangleMesh := {
  vertices : list Vec3;
  vertex_colors : list Vec3;
  vertex_normals : list Vec3;
  triangles : list (Z * Z * Z)
}.

Inductive Exn :=
| KeyError (key : string)
| IndexError
| NotImplementedError
| ValueError (msg : string)
| OverflowError.

(** [np.all(img == 0, axis=-1)]. *)
Definition pixel_is_zero (p : Pixel) : bool :=
  let '(r, g, b) := p in (r =? 0) && (g =? 0) && (b =? 0).
Definition all_zero_mask (img : Image) : Mask := map (map pixel_is_zero) img.

(** [img[mask] = v]: the selected pixels get [v] in every channel.  A mask
    whose shape differs from the image's is an [IndexError]. *)
Definition fill_pixel (v : Z) (p : Pixel) (b : bool) : Pixel :=
  if b then (v, v, v) else p.
Definition fill_row (v : Z) (row : list Pixel) (brow : list bool) : list Pixel :=
  zip_with (fill_pixel v) row brow.
Definition same_shape (img : Image) (m : Mask) : bool :=
  bool_decide (map length img = map length m).
Definition mask_assign (img : Image) (m : Mask) (v : Z) : Exn + Image :=
  if same_shape img m then inr (zip_with (fill_row v) img m) else inl IndexError.

(** [np.concatenate([a; b; c; d], axis=1)]: rows are joined left to right;
    arrays of different heights are a [ValueError]. *)
Definition hjoin (a b : Image) : Image := zip_with app a b.
Definition concatenate_axis1 (imgs : list Image) : Exn + Image :=
  match imgs with
  | [] => inl (ValueError "need at least one array to concatenate")
  | a :: rest =>
      if forallb (fun b => Nat.eqb (length b) (length a)) rest
      then inr (fold_left hjoin rest a)
      else inl (ValueError "all the input array dimensions must match")
  end.

(** ** Collaborators and configuration *)

(** What [get_planes] is given as [meta]. *)
Record Meta := {
  kpoints_2d : gmap string Point2;
  vpoint : Z * Z;
  meta_cad_idx : Z
}.

(** The external functions the callback calls, as pure functions.
    [capture_normal mesh focal extrinsic] is
    [capture_screen_float_buffer(do_render=True)] of the mesh under the
    view [align_view] has set (focal length and extrinsic; the principal
    point and the size are the window's own), scaled by 255 and cast to
    [uint8] (numpy's single-precision arithmetic stays on that side).
    [planes_to_torch] includes the reshape to one batch entry, [cat_inputs]
    is [torch.cat] along the channel axis, and [forward net x] is
    [net(x)[0]]. *)
Class Collab : Type := {
  Tensor : Type;
  Intrinsic : Type;
  Extrinsic : Type;
  Net : Type;
  Oracle : Type;
  PlaneKps : Type;
  Visib : Type;
  load_yaml_file : string -> gmap string (gmap string Vec3);
  read_triangle_mesh : string -> TriangleMesh;
  compute_vertex_normals : TriangleMesh -> TriangleMesh;
  intrinsic_matrix : Z -> float -> float -> Intrinsic;
  pascal_vpoint_to_extrinsics : Z -> Z -> float -> Extrinsic;
  project_points : Vec3 -> Intrinsic -> Extrinsic -> Point2;
  capture_normal : TriangleMesh -> Z -> Extrinsic -> Image;
  cvtColor_RGB2LAB : Image -> Image;
  get_planes : Meta -> string -> Oracle -> PlaneKps * Visib;
  to_image : Tensor -> bool -> Image;
  warp_unwarp_planes :
    list Image -> PlaneKps -> PlaneKps -> Visib -> Visib -> string ->
    list Image * list Image;
  planes_to_torch : list Image -> bool -> Tensor;
  sketch_tensor : Image -> Tensor;
  cat_inputs : Tensor -> Tensor -> Tensor -> Tensor;
  forward : Net -> Tensor -> Tensor
}.

(** The parsed command line, [args]. *)
Class Args := {
  arg_pascal_class : string;
  CAD_root : string;
  dump_dir : string;
  LAB : bool;
  verbose : bool
}.

(** What the callback asks of the visualizer it is handed: whether
    [get_render_option()] and [get_view_control()] are truthy. *)
Record Visualizer := {
  render_option : bool;
  view_control : bool
}.

(** What a tick does to the outside world, in order.  A call in the trace
    has returned: a directory that cannot be created or a window that
    cannot be opened is outside the model. *)
Inductive Effect :=
| Mkdir (path : string)
| Imwrite (path : string) (img : Image)
| PrintSaved (path : string)
| PrintView (az el : Z) (rad : float)
| UpdateGeometry
| Imshow (window : string) (img : Image)
| WaitKey (ms : Z).

Section Session.

Context {C : Collab} {args : Args}.

(** One dataset record, as the callback reads it. *)
Record TextureExample := {
  planes : list Tensor;
  src_kpoints_planes : PlaneKps;
  src_vs : Visib;
  src_central : Tensor;
  src_image : Tensor
}.

(** ** The session state

    The global dictionary [state].  The keys [run] sets before the first
    callback are plain fields; the keys only a callback sets
    ([texture_src], [kpoints_3d], [normal_vertex_colors], [dump_image]) are
    optional, and reading one that is missing is a [KeyError].
    [geometries] is the [Geometries] dictionary. *)
Record State := {
  pascal_class : string;
  angle_y : Z;
  angle_z : Z;
  cad_idx : Z;
  dataset_index : Z;
  dump_id : Z;
  focal : Z;
  geometries : gmap string TriangleMesh;
  radius : float;
  net : Net;
  dataset : list TextureExample;
  vis_oracle : Oracle;
  texture_src : option TextureExample;
  kpoints_3d : option (gmap string Vec3);
  normal_vertex_colors : option (list Vec3);
  dump_image : option Image
}.

Definition set_angle_y (v : Z) (s : State) : State :=
  {| pascal_class := pascal_class s; angle_y := v; angle_z := angle_z s;
     cad_idx := cad_idx s; dataset_index := dataset_index s; dump_id := dump_id
     s; focal := focal s; geometries := geometries s; radius := radius s; net :=
     net s; dataset := dataset s; vis_oracle := vis_oracle s; texture_src :=
     texture_src s; kpoints_3d := kpoints_3d s; normal_vertex_colors :=
     normal_vertex_colors s; dump_image := dump_image s |}.
Definition set_angle_z (v : Z) (s : State) : State :=
  {| pascal_class := pascal_class s; angle_y := angle_y s; angle_z := v;
     cad_idx := cad_idx s; dataset_index := dataset_index s; dump_id := dump_id
     s; focal := focal s; geometries := geometries s; radius := radius s; net :=
     net s; dataset := dataset s; vis_oracle := vis_oracle s; texture_src :=
     texture_src s; kpoints_3d := kpoints_3d s; normal_vertex_colors :=
     normal_vertex_colors s; dump_image := dump_image s |}.
Definition set_cad_idx (v : Z) (s : State) : State :=
  {| pascal_class := pascal_class s; angle_y := angle_y s; angle_z := angle_z
     s; cad_idx := v; dataset_index := dataset_index s; dump_id := dump_id s;
     focal := focal s; geometries := geometries s; radius := radius s; net := net
     s; dataset := dataset s; vis_oracle := vis_oracle s; texture_src :=
     texture_src s; kpoints_3d := kpoints_3d s; normal_vertex_colors :=
     normal_vertex_colors s; dump_image := dump_image s |}.
Definition set_dataset_index (v : Z) (s : State) : State :=
  {| pascal_class := pascal_class s; angle_y := angle_y s; angle_z := angle_z
     s; cad_idx := cad_idx s; dataset_index := v; dump_id := dump_id s; focal :=
     focal s; geometries := geometries s; radius := radius s; net := net s;
     dataset := dataset s; vis_oracle := vis_oracle s; texture_src := texture_src
     s; kpoints_3d := kpoints_3d s; normal_vertex_colors := normal_vertex_colors
     s; dump_image := dump_image s |}.
Definition set_dump_id (v : Z) (s : State) : State :=
  {| pascal_class := pascal_class s; angle_y := angle_y s; angle_z := angle_z
     s; cad_idx := cad_idx s; dataset_index := dataset_index s; dump_id := v;
     focal := focal s; geometries := geometries s; radius := radius s; net := net
     s; dataset := dataset s; vis_oracle := vis_oracle s; texture_src :=
     texture_src s; kpoints_3d := kpoints_3d s; normal_vertex_colors :=
     normal_vertex_colors s; dump_image := dump_image s |}.
Definition set_geometries (v : gmap string TriangleMesh) (s : State) : State :=
  {| pascal_class := pascal_class s; angle_y := angle_y s; angle_z := angle_z
     s; cad_idx := cad_idx s; dataset_index := dataset_index s; dump_id :=
     dump_id s; focal := focal s; geometries := v; radius := radius s; net := net
     s; dataset := dataset s; vis_oracle := vis_oracle s; texture_src :=
     texture_src s; kpoints_3d := kpoints_3d s; normal_vertex_colors :=
     normal_vertex_colors s; dump_image := dump_image s |}.
Definition set_radius (v : float) (s : State) : State :=
  {| pascal_class := pascal_class s; angle_y := angle_y s; angle_z := angle_z
     s; cad_idx := cad_idx s; dataset_index := dataset_index s; dump_id :=
     dump_id s; focal := focal s; geometries := geometries s; radius := v; net :=
     net s; dataset := dataset s; vis_oracle := vis_oracle s; texture_src :=
     texture_src s; kpoints_3d := kpoints_3d s; normal_vertex_colors :=
     normal_vertex_colors s; dump_image := dump_image s |}.
Definition set_texture_src (v : option TextureExample) (s : State) : State :=
  {| pascal_class := pascal_class s; angle_y := angle_y s; angle_z := angle_z
     s; cad_idx := cad_idx s; dataset_index := dataset_index s; dump_id :=
     dump_id s; focal := focal s; geometries := geometries s; radius := radius s;
     net := net s; dataset := dataset s; vis_oracle := vis_oracle s; texture_src
     := v; kpoints_3d := kpoints_3d s; normal_vertex_colors :=
     normal_vertex_colors s; dump_image := dump_image s |}.
Definition set_kpoints_3d (v : option (gmap string Vec3)) (s : State) : State :=
  {| pascal_class := pascal_class s; angle_y := angle_y s; angle_z := angle_z
     s; cad_idx := cad_idx s; dataset_index := dataset_index s; dump_id :=
     dump_id s; focal := focal s; geometries := geometries s; radius := radius s;
     net := net s; dataset := dataset s; vis_oracle := vis_oracle s; texture_src
     := texture_src s; kpoints_3d := v; normal_vertex_colors :=
     normal_vertex_colors s; dump_image := dump_image s |}.
Definition set_normal_vertex_colors (v : option (list Vec3)) (s : State) : State :=
  {| pascal_class := pascal_class s; angle_y := angle_y s; angle_z := angle_z
     s; cad_idx := cad_idx s; dataset_index := dataset_index s; dump_id :=
     dump_id s; focal := focal s; geometries := geometries s; radius := radius s;
     net := net s; dataset := dataset s; vis_oracle := vis_oracle s; texture_src
     := texture_src s; kpoints_3d := kpoints_3d s; normal_vertex_colors := v;
     dump_image := dump_image s |}.
Definition set_dump_image (v : option Image) (s : State) : State :=
  {| pascal_class := pascal_class s; angle_y := angle_y s; angle_z := angle_z
     s; cad_idx := cad_idx s; dataset_index := dataset_index s; dump_id :=
     dump_id s; focal := focal s; geometries := geometries s; radius := radius s;
     net := net s; dataset := dataset s; vis_oracle := vis_oracle s; texture_src
     := texture_src s; kpoints_3d := kpoints_3d s; normal_vertex_colors :=
     normal_vertex_colors s; dump_image := v |}.

(** ** Running Python statements

    A statement reads and writes the global [state], may raise, and leaves
    a trace of effects.  What was written before an exception stays
    written. *)
Record Run (A : Type) := mkRun {
  outcome : Exn + A;
  store : State;
  trace : list Effect
}.
Arguments mkRun {A} _ _ _.
Arguments outcome {A} _.
Arguments store {A} _.
Arguments trace {A} _.

Definition Py (A : Type) : Type := State -> Run A.

Definition ret {A} (a : A) : Py A := fun s => mkRun (inr a) s [].

Definition bind {A B} (m : Py A) (k : A -> Py B) : Py B := fun s =>
  match m s with
  | mkRun (inl e) s1 t1 => mkRun (inl e) s1 t1
  | mkRun (inr a) s1 t1 =>
      match k a s1 with
      | mkRun o s2 t2 => mkRun o s2 (t1 ++ t2)%list
      end
  end.

Definition raise {A} (e : Exn) : Py A := fun s => mkRun (inl e) s [].
Definition get : Py State := fun s => mkRun (inr s) s [].
Definition modify (f : State -> State) : Py unit := fun s => mkRun (inr tt) (f s) [].
Definition emit (e : Effect) : Py unit := fun s => mkRun (inr tt) s [e].

(** A computation that may raise but touches nothing. *)
Definition lift {A} (x : Exn + A) : Py A :=
  match x with inl e => raise e | inr a => ret a end.

(** [d[key]] on a dictionary entry that may be missing. *)
Definition item {A} (key : string) (v : option A) : Py A :=
  match v with Some a => ret a | None => raise (KeyError key) end.

(** stdpp's monad notations: [x ← m; k] and [m;; k]. *)
#[local] Instance Py_ret : MRet Py := @ret.
#[local] Instance Py_bind : MBind Py := fun A B k m => bind m k.

(** [int(x)] on a float. *)
Definition int_of_float (x : float) : Py Z :=
  match F.trunc x with
  | Some z => ret z
  | None => raise (if F.is_nan x then ValueError "cannot convert float NaN to integer"
                   else OverflowError)
  end.

(** Modelled from the spec: [state['dataset'][i]].  The class
    [TextureDatasetWithNormal] lives in [datasets/dataset_texture.py],
    outside [run_rotate.py]; the spec gives the dataset as an indexable
    collection of records (100 of them in the fast-load mode), so it is a
    list and an index past its end is an [IndexError].  The callback only
    ever passes indices [>= 0]. *)
Definition dataset_getitem (d : list TextureExample) (i : Z) : Py TextureExample :=
  if i <? 0 then raise IndexError
  else match d !! Z.to_nat i with
       | Some ex => ret ex
       | None => raise IndexError
       end.

(** [(np.asarray(mesh.vertex_normals) + 1) / 2.] *)
Definition normal_color (n : Vec3) : Vec3 :=
  let '(x, y, z) := n in
  (((x + 1) / 2)%float, ((y + 1) / 2)%float, ((z + 1) / 2)%float).

Definition set_vertex_colors (c : list Vec3) (m : TriangleMesh) : TriangleMesh :=
  {| vertices := vertices m; vertex_colors := c;
     vertex_normals := vertex_normals m; triangles := triangles m |}.

(** The file stem [pascal_{class}_cad_{cad_idx:03d}] of a CAD model. *)
Definition model_stem (cls : string) (cad : Z) : string :=
  "pascal_" ++ cls ++ "_cad_" ++ fmt03d cad.

(** The name [dump_frame] saves under, without directory and extension. *)
Definition dump_name (d_id el az rad : Z) : string :=
  fmt03d d_id ++ "_el_" ++ fmt03d el ++ "_az_" ++ fmt03d az
  ++ "_rad_" ++ fmt03d rad.

(** ** [Callbacks.__call__], first half: the key *)
Definition on_key (key : Z) : Py unit :=
  if key =? 0 then ret tt
  else if key =? ord "X"%char then
    emit (Mkdir dump_dir);;
    s ← get;
    let pascal_az := (angle_z s + 90) mod 360 in
    let pascal_el := 90 - angle_y s in
    rad ← int_of_float (radius s);
    let d_id := dump_id s in
    let id_str := dump_name d_id pascal_el pascal_az rad in
    let dump_image_path := path_join dump_dir (id_str ++ ".png") in
    img ← item "dump_image" (dump_image s);
    emit (Imwrite dump_image_path img);;
    emit (PrintSaved dump_image_path);;
    modify (fun s => set_dump_id (dump_id s + 1) s)
  else if key =? ord "R"%char then ret tt
  else if key =? ord "F"%char then modify (fun s => set_angle_y (angle_y s + 5) s)
  else if key =? ord "D"%char then modify (fun s => set_angle_y (angle_y s - 5) s)
  else if key =? ord "S"%char then modify (fun s => set_angle_z (angle_z s + 5) s)
  else if key =? ord "A"%char then modify (fun s => set_angle_z (angle_z s - 5) s)
  else if key =? ord "H"%char then
    modify (fun s => set_radius (radius s + step_0_05)%float s)
  else if key =? ord "G"%char then
    modify (fun s => set_radius (radius s - step_0_05)%float s)
  else if key =? ord " "%char then
    s ← get;
    ex ← dataset_getitem (dataset s) (dataset_index s);
    modify (set_texture_src (Some ex));;
    modify (fun s => set_dataset_index (dataset_index s + 1) s)
  else if key =? ord "N"%char then
    modify (fun s => set_cad_idx (cad_idx s + 1) s);;
    s ← get;
    (if cad_idx s =? 10 then modify (set_cad_idx 0) else ret tt);;
    s ← get;
    let stem := model_stem (pascal_class s) (cad_idx s) in
    let model_path := path_join CAD_root (stem ++ ".ply") in
    let yaml_file := path_join CAD_root (stem ++ ".yaml") in
    kps ← item "kpoints_3d" (load_yaml_file yaml_file !! "kpoints_3d");
    modify (set_kpoints_3d (Some kps));;
    let mesh := compute_vertex_normals (read_triangle_mesh model_path) in
    modify (set_normal_vertex_colors (Some (map normal_color (vertex_normals mesh))));;
    s ← get;
    match geometries s !! "mesh" with
    | None => modify (set_geometries (<["mesh" := mesh]> (geometries s)))
    | Some old =>
        modify (set_geometries
                  (<["mesh" := {| vertices := vertices mesh;
                                  vertex_colors := vertex_colors mesh;
                                  vertex_normals := vertex_normals mesh;
                                  triangles := triangles mesh |}]> (geometries s)))
    end
  else raise NotImplementedError.

(** ** [Callbacks.__call__], second half: the frame *)

(** The camera of the frame: clamped pitch, clamped radius, azimuth and
    elevation in the projection's convention. *)
Record Camera := {
  cam_angle_y : Z;
  cam_radius : float;
  pascal_az : Z;
  pascal_el : Z
}.

Definition camera (s : State) : Camera :=
  let angle_y := clipZ (angle_y s) (-90) 90 in
  let radius := F.clip (radius s) 0 (radius s) in
  {| cam_angle_y := angle_y;
     cam_radius := radius;
     pascal_az := (angle_z s + 90) mod 360;
     pascal_el := 90 - angle_y |}.

(** One keypoint: project, divide by [(img_w, img_h)], clip to [-1, 1]. *)
Definition project_kpoint (K : Intrinsic) (E : Extrinsic) (k_val : Vec3) : Point2 :=
  let '(x, y) := project_points k_val K E in
  (F.clip (x / F.of_Z img_w) (-1) 1, F.clip (y / F.of_Z img_h) (-1) 1).

(** The loop over [state['kpoints_3d'].items()]. *)
Definition project_kpoints (K : Intrinsic) (E : Extrinsic)
    (kps : gmap string Vec3) : gmap string Point2 :=
  project_kpoint K E <$> kps.

(** Masking with the silhouette and tiling the display frame. *)
Definition composite (object_mask : Mask)
    (sketch central net_image source : Image) : Exn + Image :=
  match mask_assign net_image object_mask 255 with
  | inl e => inl e
  | inr masked => concatenate_axis1 [sketch; central; masked; source]
  end.

(** Lines 164 to 226: from the rendered normal image to the display
    frame.  This part reads the state and writes nothing. *)
Definition frame_image (s : State) (cam : Camera) (mesh : TriangleMesh) : Exn + Image :=
  let intrinsic :=
    intrinsic_matrix (focal s) (F.of_Z img_w / 2)%float (F.of_Z img_h / 2)%float in
  let extrinsic :=
    pascal_vpoint_to_extrinsics (pascal_az cam) (pascal_el cam) (cam_radius cam) in
  let src_normal := capture_normal mesh (focal s) extrinsic in
  let object_mask := all_zero_mask src_normal in
  if negb LAB
  then inl (ValueError "Released model was trained in LAB space.")
  else
    let src_normal := cvtColor_RGB2LAB src_normal in
    match kpoints_3d s with
    | None => inl (KeyError "kpoints_3d")
    | Some kps =>
        let meta := {| kpoints_2d := project_kpoints intrinsic extrinsic kps;
                       vpoint := (pascal_az cam, pascal_el cam);
                       meta_cad_idx := cad_idx s |} in
        let '(dst_kpoints_planes, dst_visibilities) :=
          get_planes meta arg_pascal_class (vis_oracle s) in
        match texture_src s with
        | None => inl (KeyError "texture_src")
        | Some texture_src =>
            let src_planes :=
              map (fun i => to_image i LAB) (planes texture_src) in
            let '(planes_warped, planes_unwarped) :=
              warp_unwarp_planes src_planes (src_kpoints_planes texture_src)
                dst_kpoints_planes (src_vs texture_src) dst_visibilities
                arg_pascal_class in
            let planes_warped := planes_to_torch planes_warped LAB in
            let src_sketch_input := sketch_tensor src_normal in
            let src_central := src_central texture_src in
            let gen_in_src :=
              cat_inputs src_sketch_input src_central planes_warped in
            let net_image := to_image (forward (net s) gen_in_src) LAB in
            composite object_mask
              (to_image src_sketch_input LAB)
              (to_image src_central LAB)
              net_image
              (to_image (src_image texture_src) LAB)
        end
    end.

(** Is the visualizer able to render ([get_render_option()] and
    [get_view_control()] both truthy)? *)
Definition can_render (vis : Visualizer) : bool :=
  render_option vis && view_control vis.

(** [align_view(vis, focal, extrinsic)]: the view it sets reaches the
    model as the arguments of [capture_normal]; what is left of it here is
    its closing [vis.update_geometry()]. *)
Definition align_view : Py unit := emit UpdateGeometry.

Definition on_frame (vis : Visualizer) : Py unit :=
  s ← get;
  colors ← item "normal_vertex_colors" (normal_vertex_colors s);
  mesh ← item "mesh" (geometries s !! "mesh");
  let mesh := set_vertex_colors colors mesh in
  modify (set_geometries (<["mesh" := mesh]> (geometries s)));;
  s ← get;
  let cam := camera s in
  (if verbose
   then emit (PrintView (pascal_az cam) (cam_angle_y cam) (cam_radius cam))
   else ret tt);;
  if negb (render_option vis) || negb (view_control vis)
  then emit UpdateGeometry
  else
    align_view;;
    out_image ← lift (frame_image s cam mesh);
    modify (set_dump_image (Some out_image));;
    emit (Imshow "Output" out_image);;
    emit (WaitKey 20);;
    emit UpdateGeometry.

(** [Callbacks(key)(vis)]. *)
Definition Callbacks_call (key : Z) (vis : Visualizer) : Py unit :=
  on_key key;; on_frame vis.

(** ** [run]: the initial state and the three start-up callbacks *)
Definition init_state (n : Net) (d : list TextureExample) (o : Oracle) : State :=
  {| pascal_class := arg_pascal_class;
     angle_y := 90;
     angle_z := 0;
     cad_idx := 0;
     dataset_index := 0;
     dump_id := 0;
     focal := 1000;
     geometries := ∅;
     radius := 7;
     net := n;
     dataset := d;
     vis_oracle := o;
     texture_src := None;
     kpoints_3d := None;
     normal_vertex_colors := None;
     dump_image := None |}.

(** [o3d.Visualizer()] before any window exists: the callback's guard
    finds neither render option nor view control. *)
Definition bare_visualizer : Visualizer :=
  {| render_option := false; view_control := false |}.

Definition run_init (v : Visualizer) : Py unit :=
  Callbacks_call (ord "N"%char) v;;
  Callbacks_call (ord " "%char) v;;
  Callbacks_call 0 v.

(** ** A sequence of ticks

    Key callbacks run one after the other against the same global
    [state]; whatever a callback wrote stays, also when it raised.  [play]
    gives the state after the ticks, [outcomes] what each tick returned and
    [traces] what each tick did. *)
Definition tick (vis : Visualizer) (s : State) (key : Z) : State :=
  store (Callbacks_call key vis s).

Definition play (vis : Visualizer) (keys : list Z) (s : State) : State :=
  fold_left (tick vis) keys s.

Fixpoint outcomes (vis : Visualizer) (keys : list Z) (s : State) : list (Exn + unit) :=
  match keys with
  | [] => []
  | k :: rest =>
      let r := Callbacks_call k vis s in
      outcome r :: outcomes vis rest (store r)
  end.

Fixpoint traces (vis : Visualizer) (keys : list Z) (s : State) : list (list Effect) :=
  match keys with
  | [] => []
  | k :: rest =>
      let r := Callbacks_call k vis s in
      trace r :: traces vis rest (store r)
  end.

(** The spec's event names for the keys.  The two pitch keys are named
    after the sign of the change to [angle_y]; ['R'] is the key that
    overrides Open3D's view reset and does nothing. *)
Definition no_op : Z := 0.
Definition dump_frame : Z := ord "X"%char.
Definition reset_view : Z := ord "R"%char.
Definition rotate_up : Z := ord "F"%char.
Definition rotate_down : Z := ord "D"%char.
Definition rotate_right : Z := ord "S"%char.
Definition rotate_left : Z := ord "A"%char.
Definition zoom_in : Z := ord "H"%char.
Definition zoom_out : Z := ord "G"%char.
Definition next_example : Z := ord " "%char.
Definition next_model : Z := ord "N"%char.

(** The state [run] hands to the key loop: the initial state after the
    three start-up callbacks, called on the visualizer [v]. *)
Definition session_start (v : Visualizer) (n : Net) (d : list TextureExample)
    (o : Oracle) : State :=
  store (run_init v (init_state n d o)).

(** ** A tick in closed form

    [framed] is what the frame half of a tick comes to, case by case;
    [on_frame_eq] below shows it equal to [on_frame]. *)

(** What the verbose flag prints for a state. *)
Definition view_print (s : State) : list Effect :=
  if verbose
  then [PrintView (pascal_az (camera s)) (cam_angle_y (camera s)) (cam_radius (camera s))]
  else [].

(** The mesh as line 138 leaves it. *)
Definition recolour (colors : list Vec3) (mesh : TriangleMesh) (s : State) : State :=
  set_geometries (<["mesh" := set_vertex_colors colors mesh]> (geometries s)) s.

(** What [align_view] leaves in the trace. *)
Definition aligned : list Effect := [UpdateGeometry].

(** The three calls that end a rendered tick. *)
Definition shown (out : Image) : list Effect :=
  [Imshow "Output" out; WaitKey 20; UpdateGeometry].

Definition framed (vis : Visualizer) (s : State) : Run unit :=
  match normal_vertex_colors s with
  | None => mkRun (inl (KeyError "normal_vertex_colors")) s []
  | Some colors =>
      match geometries s !! "mesh" with
      | None => mkRun (inl (KeyError "mesh")) s []
      | Some mesh =>
          let s1 := recolour colors mesh s in
          if can_render vis then
            match frame_image s1 (camera s1) (set_vertex_colors colors mesh) with
            | inl e => mkRun (inl e) s1 (view_print s1 ++ aligned)%list
            | inr out =>
                mkRun (inr tt) (set_dump_image (Some out) s1)
                  (view_print s1 ++ aligned ++ shown out)%list
            end
          else mkRun (inr tt) s1 (view_print s1 ++ [UpdateGeometry])%list
      end
  end.

(** ** Names used in the statements *)

(** The three viewpoint controls. *)
Definition viewpoint (s : State) : Z * Z * float := (angle_y s, angle_z s, radius s).

(** The index [next_model] moves to: one up, and 10 becomes 0. *)
Definition next_cad (i : Z) : Z := if i + 1 =? 10 then 0 else i + 1.

(** The key codes the dispatch chain of [Callbacks.__call__] names. *)
Definition recognized : list Z :=
  [no_op; dump_frame; reset_view; rotate_up; rotate_down; rotate_right;
   rotate_left; zoom_in; zoom_out; next_example; next_model].

(** The pixel in row [i], column [j]. *)
Definition pixel_at {X} (img : list (list X)) (i j : nat) : option X :=
  match img !! i with
  | Some row => row !! j
  | None => None
  end.

(** A float that is NaN or lies between -1 and 1. *)
Definition in_unit (c : float) : Prop :=
  F.is_nan c = true \/ (PrimFloat.leb (-1) c = true /\ PrimFloat.leb c 1 = true).

(** The normalisation as the spec words it, to compare with
    [project_kpoint]: divide by half the frame size, then clip. *)
Definition project_kpoint_half_frame (K : Intrinsic) (E : Extrinsic) (k_val : Vec3) : Point2 :=
  let '(x, y) := project_points k_val K E in
  (F.clip (x / (F.of_Z img_w / 2)) (-1) 1, F.clip (y / (F.of_Z img_h / 2)) (-1) 1).

(** A reading of the state that does not look at what the frame half
    writes. *)
Definition frame_blind {X} (f : State -> X) : Prop :=
  forall g di s, f (set_dump_image di (set_geometries g s)) = f s.

(** The scalar entries of [state]. *)
Inductive Scalar :=
| AngleY | AngleZ | Radius | CadIdx | DatasetIndex | DumpId | Focal.

Definition scalar (f : Scalar) (s : State) : Z + float :=
  match f with
  | AngleY => inl (angle_y s)
  | AngleZ => inl (angle_z s)
  | Radius => inr (radius s)
  | CadIdx => inl (cad_idx s)
  | DatasetIndex => inl (dataset_index s)
  | DumpId => inl (dump_id s)
  | Focal => inl (focal s)
  end.

(** For the six viewpoint keys and the two selection keys: the scalar the
    key writes and the value it writes. *)
Definition assigned (key : Z) (s : State) : option (Scalar * (Z + float)) :=
  if key =? rotate_up then Some (AngleY, inl (angle_y s + 5))
  else if key =? rotate_down then Some (AngleY, inl (angle_y s - 5))
  else if key =? rotate_right then Some (AngleZ, inl (angle_z s + 5))
  else if key =? rotate_left then Some (AngleZ, inl (angle_z s - 5))
  else if key =? zoom_in then Some (Radius, inr (radius s + step_0_05)%float)
  else if key =? zoom_out then Some (Radius, inr (radius s - step_0_05)%float)
  else if key =? next_example then Some (DatasetIndex, inl (dataset_index s + 1))
  else if key =? next_model then Some (CadIdx, inl (next_cad (cad_idx s)))
  else None.

(** A tick that composed and showed a frame. *)
Definition rerendered (r : Run unit) : Prop :=
  exists out, In (Imshow "Output" out) (trace r) /\ dump_image (store r) = Some out.

(** The path [dump_frame] writes to for dump index [d] in state [s] whose
    radius truncates to [rad]. *)
Definition dump_path (s : State) (d rad : Z) : string :=
  path_join dump_dir
    (dump_name d (90 - angle_y s) ((angle_z s + 90) mod 360) rad ++ ".png").

(** The first three effects of a [dump_frame] tick that wrote [img] to
    [path]. *)
Definition dumped (path : string) (img : Image) (t : list Effect) : Prop :=
  exists rest, t = Mkdir dump_dir :: Imwrite path img :: PrintSaved path :: rest.

End Session.

Arguments mkRun {C A} _ _ _.
Arguments outcome {C A} _.
Arguments store {C A} _.
Arguments trace {C A} _.

(** ** The rest of [run_rotate.py]: [Geometries.as_list], [run], the entry
    point *)

(** [Geometries.as_list].  A value of the dictionary is one geometry
    ([inl], appended) or an iterable of geometries ([inr], spliced in).
    The test is [isinstance(v, collections.Iterable)], an alias Python
    dropped in 3.10: the definition is of an interpreter that still has
    it. *)
Definition as_list {G} (values : list (G + list G)) : list G :=
  fold_left (fun l v => match v with
                        | inr gs => (l ++ gs)%list
                        | inl g => (l ++ [g])%list
                        end) values [].

(** The dictionary [key_callbacks] of [run], in the order it is written:
    the key code given to Open3D and the key of the [Callbacks] object
    bound to it. *)
Definition key_callbacks : list (Z * Z) :=
  [(ord "F"%char, ord "F"%char); (ord "D"%char, ord "D"%char);
   (ord "A"%char, ord "A"%char); (ord "S"%char, ord "S"%char);
   (ord "H"%char, ord "H"%char); (ord "G"%char, ord "G"%char);
   (ord " "%char, ord " "%char); (ord "N"%char, ord "N"%char);
   (ord "O"%char, ord "O"%char); (ord "P"%char, ord "P"%char);
   (ord "X"%char, ord "X"%char)].

(** [input_nc] of [run]: the width of the network's input. *)
Definition input_nc (cls : string) : Z := if String.eqb cls "car" then 21 else 18.

Section Startup.

Context {C : Collab} {args : Args}.

(** [state['geometries'].as_list()].  Every value the callback stores is a
    single mesh.  The entries come in the order of the finite map; the
    callback only ever uses the key ['mesh']. *)
Definition geometry_list (s : State) : list TriangleMesh :=
  as_list (map (fun kv : string * TriangleMesh => inl (snd kv))
             (map_to_list (geometries s))).

(** [run], from the initial state to the call of
    [draw_geometries_with_key_callbacks]: the result is what that call is
    handed, the geometry list and the key table. *)
Definition run (v : Visualizer) (n : Net) (d : list TextureExample) (o : Oracle) :
    Run (list TriangleMesh * list (Z * Z)) :=
  bind (run_init v)
    (fun _ => bind get (fun s => ret (geometry_list s, key_callbacks)))
    (init_state n d o).

(** One write of a callback to the state: what the dispatch chain and the
    frame half can do to it, one constructor per assignment (or group of
    assignments with nothing that can raise in between). *)
Inductive write (s : State) : State -> Prop :=
| write_dump_id (img : Image) :
    dump_image s = Some img -> write s (set_dump_id (dump_id s + 1) s)
| write_angle_y (d : Z) :
    d = 5 \/ d = -5 -> write s (set_angle_y (angle_y s + d) s)
| write_angle_z (d : Z) :
    d = 5 \/ d = -5 -> write s (set_angle_z (angle_z s + d) s)
| write_radius (up : bool) :
    write s (set_radius (if up then radius s + step_0_05 else radius s - step_0_05)%float s)
| write_example (ex : TextureExample) :
    0 <= dataset_index s ->
    dataset s !! Z.to_nat (dataset_index s) = Some ex ->
    write s (set_dataset_index (dataset_index s + 1) (set_texture_src (Some ex) s))
| write_cad_idx : write s (set_cad_idx (next_cad (cad_idx s)) s)
| write_model (kps : gmap string Vec3) (mesh : TriangleMesh) :
    write s
      (set_geometries (<["mesh" := mesh]> (geometries s))
         (set_normal_vertex_colors (Some (map normal_color (vertex_normals mesh)))
            (set_kpoints_3d (Some kps) s)))
| write_colours (colors : list Vec3) (mesh : TriangleMesh) :
    normal_vertex_colors s = Some colors ->
    geometries s !! "mesh" = Some mesh ->
    write s (recolour colors mesh s)
| write_frame (out : Image) : write s (set_dump_image (Some out) s).

(** Any number of writes, one after the other. *)
Inductive writes (s : State) : State -> Prop :=
| writes_nil : writes s s
| writes_cons s1 s2 : writes s s1 -> write s1 s2 -> writes s s2.

(** How often a key occurs in a sequence of keys. *)
Definition presses (k : Z) (keys : list Z) : Z :=
  Z.of_nat (length (filter (fun x => x = k) keys)).

End Startup.

(** The parsed command line, before the entry point touches it. *)
Record Parsed := {
  p_pascal_class : string;
  p_texture_dataset_dir : string;
  p_model_path : string;
  p_CAD_root : string;
  p_dump_dir : string;
  p_device : string;
  p_demo : bool;
  p_verbose : bool
}.

(** What the entry point starts [run] with. *)
Record Config := {
  cfg_args : Args;
  cfg_texture_dataset_dir : string;
  cfg_model_path : string;
  cfg_device : string;
  cfg_demo : bool
}.

Inductive MainError :=
| OSError (msg : string)
| FileNotFoundError (path : string).

(** The [__main__] block after [parse_args]: [LAB] and [demo] are set,
    the two paths are checked, [help.txt] is read and printed, [run] is
    called.  [is_file] and [is_dir] are the file system's answers and
    [help] the text of [./help.txt], if it can be opened.  The result is
    the text printed and the configuration [run] gets. *)
Definition main (p : Parsed) (is_file is_dir : string -> bool) (help : option string) :
    MainError + (string * Config) :=
  let LAB := true in
  let demo := true in
  if negb (is_file (p_model_path p))
  then inl (OSError "Please provide a valid file for pretrained weights.")
  else if negb (is_dir (p_CAD_root p))
  then inl (OSError "Please provide a valid CAD root.")
  else match help with
       | None => inl (FileNotFoundError "./help.txt")
       | Some text =>
           inr (text,
                {| cfg_args := {| arg_pascal_class := p_pascal_class p;
                                  CAD_root := p_CAD_root p;
                                  dump_dir := p_dump_dir p;
                                  LAB := LAB;
                                  verbose := p_verbose p |};
                   cfg_texture_dataset_dir := p_texture_dataset_dir p;
                   cfg_model_path := p_model_path p;
                   cfg_device := p_device p;
                   cfg_demo := demo |})
       end.

(** ** Reading traces and file names *)

(** An effect on the file system or the console line that reports it. *)
Definition touches_files (e : Effect) : Prop :=
  match e with
  | Mkdir _ | Imwrite _ _ | PrintSaved _ => True
  | _ => False
  end.

(** An effect that puts a frame on the screen. *)
Definition shows_frame (e : Effect) : Prop :=
  match e with
  | Imshow _ _ => True
  | _ => False
  end.

(** The paths a trace writes images to, in order. *)
Fixpoint written (t : list Effect) : list string :=
  match t with
  | [] => []
  | Imwrite path _ :: rest => path :: written rest
  | _ :: rest => written rest
  end.

(** The value of a decimal digit. *)
Definition digit_value (c : ascii) : option N :=
  (if Ascii.eqb c "0" then Some 0 else if Ascii.eqb c "1" then Some 1
   else if Ascii.eqb c "2" then Some 2 else if Ascii.eqb c "3" then Some 3
   else if Ascii.eqb c "4" then Some 4 else if Ascii.eqb c "5" then Some 5
   else if Ascii.eqb c "6" then Some 6 else if Ascii.eqb c "7" then Some 7
   else if Ascii.eqb c "8" then Some 8 else if Ascii.eqb c "9" then Some 9
   else None)%char%N.

(** The number a string starts with: its leading digits, read in base
    10 on top of [acc]. *)
Fixpoint read_digits (acc : N) (s : string) : N :=
  match s with
  | String c rest =>
      match digit_value c with
      | Some d => read_digits (10 * acc + d) rest
      | None => acc
      end
  | EmptyString => acc
  end.

(** ** A small world to run the definitions in

    One keypoint, a one-triangle mesh, a camera on the optical axis at the
    given distance, a one-row frame of two pixels and a dataset of two
    records.  Tensors are the images they stand for. *)

Definition toy_mesh : TriangleMesh :=
  {| vertices := [(0, 0, 0); (1, 0, 0); (0, 1, 0)]%float;
     vertex_colors := [];
     vertex_normals := [];
     triangles := [(0, 1, 2)] |}.

(** A pinhole camera: translate along the optical axis, then project. *)
Definition toy_project (p : Vec3) (K : float * float * float) (E : float) : Point2 :=
  let '(x, y, z) := p in
  let '(f, cx, cy) := K in
  ((f * x / (z + E) + cx)%float, (f * y / (z + E) + cy)%float).

Definition toy : Collab :=
  {| Tensor := list (list Pixel);
     Intrinsic := float * float * float;
     Extrinsic := float;
     Net := unit;
     Oracle := unit;
     PlaneKps := unit;
     Visib := unit;
     load_yaml_file := fun _ => {[ "kpoints_3d" := {[ "seat" := (0, 0, 0)%float ]} ]};
     read_triangle_mesh := fun _ => toy_mesh;
     compute_vertex_normals := fun m =>
       {| vertices := vertices m; vertex_colors := vertex_colors m;
          vertex_normals := [(0, 0, 1); (0, 0, 1); (0, 0, 1)]%float;
          triangles := triangles m |};
     intrinsic_matrix := fun f cx cy => (F.of_Z f, cx, cy);
     pascal_vpoint_to_extrinsics := fun _ _ r => r;
     project_points := toy_project;
     capture_normal := fun _ _ _ => [[(0, 0, 0); (128, 128, 255)]];
     cvtColor_RGB2LAB := fun img => img;
     get_planes := fun _ _ _ => (tt, tt);
     to_image := fun t _ => t;
     warp_unwarp_planes := fun ps _ _ _ _ _ => (ps, ps);
     planes_to_torch := fun _ _ => [[(0, 0, 0); (0, 0, 0)]];
     sketch_tensor := fun img => img;
     cat_inputs := fun a _ _ => a;
     forward := fun _ _ => [[(10, 20, 30); (40, 50, 60)]] |}.

Definition toy_args : Args :=
  {| arg_pascal_class := "chair";
     CAD_root := "/cad";
     dump_dir := "/tmp";
     LAB := true;
     verbose := false |}.

Definition toy_example (v : Z) : TextureExample (C := toy) :=
  @Build_TextureExample toy [] tt tt
    [[(v, v, v); (v, v, v)]]
    [[(v + 1, v + 1, v + 1); (v + 1, v + 1, v + 1)]].

Definition toy_dataset : list (TextureExample (C := toy)) :=
  [toy_example 1; toy_example 3].

(** A visualizer with a window. *)
Definition live_visualizer : Visualizer :=
  {| render_option := true; view_control := true |}.

(** The toy session as [run] starts it. *)
Definition toy_init : State (C := toy) :=
  init_state (C := toy) (args := toy_args) tt toy_dataset tt.

Definition toy_start : State (C := toy) :=
  session_start (C := toy) (args := toy_args) bare_visualizer tt toy_dataset tt.

(** The frame the toy session composes. *)
Definition toy_frame : Image :=
  [[(0, 0, 0); (128, 128, 255); (1, 1, 1); (1, 1, 1);
    (255, 255, 255); (40, 50, 60); (2, 2, 2); (2, 2, 2)]].

(** The toy session after its first rendered tick. *)
Definition toy_shown : State (C := toy) :=
  tick (C := toy) (args := toy_args) live_visualizer toy_start no_op.

(** The toy command line with the colour space switched to RGB. *)
Definition rgb_args : Args :=
  {| arg_pascal_class := "chair";
     CAD_root := "/cad";
     dump_dir := "/tmp";
     LAB := false;
     verbose := false |}.

(** The toy world with one metadata file only, that of chair model 1. *)
Definition catalog_toy : Collab :=
  {| Tensor := @Tensor toy;
     Intrinsic := @Intrinsic toy;
     Extrinsic := @Extrinsic toy;
     Net := @Net toy;
     Oracle := @Oracle toy;
     PlaneKps := @PlaneKps toy;
     Visib := @Visib toy;
     load_yaml_file := fun path =>
       if String.eqb path "/cad/pascal_chair_cad_001.yaml"
       then {[ "kpoints_3d" := {[ "seat" := (0, 0, 0)%float ]} ]}
       else ∅;
     read_triangle_mesh := @read_triangle_mesh toy;
     compute_vertex_normals := @compute_vertex_normals toy;
     intrinsic_matrix := @intrinsic_matrix toy;
     pascal_vpoint_to_extrinsics := @pascal_vpoint_to_extrinsics toy;
     project_points := @project_points toy;
     capture_normal := @capture_normal toy;
     cvtColor_RGB2LAB := @cvtColor_RGB2LAB toy;
     get_planes := @get_planes toy;
     to_image := @to_image toy;
     warp_unwarp_planes := @warp_unwarp_planes toy;
     planes_to_torch := @planes_to_torch toy;
     sketch_tensor := @sketch_tensor toy;
     cat_inputs := @cat_inputs toy;
     forward := @forward toy |}.

(** The toy world with CAD metadata files that hold no keypoints. *)
Definition blank_toy : Collab :=
  {| Tensor := @Tensor toy;
     Intrinsic := @Intrinsic toy;
     Extrinsic := @Extrinsic toy;
     Net := @Net toy;
     Oracle := @Oracle toy;
     PlaneKps := @PlaneKps toy;
     Visib := @Visib toy;
     load_yaml_file := fun _ => ∅;
     read_triangle_mesh := @read_triangle_mesh toy;
     compute_vertex_normals := @compute_vertex_normals toy;
     intrinsic_matrix := @intrinsic_matrix toy;
     pascal_vpoint_to_extrinsics := @pascal_vpoint_to_extrinsics toy;
     project_points := @project_points toy;
     capture_normal := @capture_normal toy;
     cvtColor_RGB2LAB := @cvtColor_RGB2LAB toy;
     get_planes := @get_planes toy;
     to_image := @to_image toy;
     warp_unwarp_planes := @warp_unwarp_planes toy;
     planes_to_torch := @planes_to_torch toy;
     sketch_tensor := @sketch_tensor toy;
     cat_inputs := @cat_inputs toy;
     forward := @forward toy |}.

Section SessionFacts.

Context {C : Collab} {args : Args}.

#[local] Arguments model_stem : simpl never.
#[local] Arguments path_join : simpl never.
#[local] Arguments dump_name : simpl never.
#[local] Arguments String.append : simpl never.

(** Key codes are numerals once evaluated. *)
Ltac eval_ord :=
  repeat match goal with
         | |- context [ord ?c] =>
             let v := eval vm_compute in (ord c) in change (ord c) with v
         end.

(** ** The two halves of a tick *)

Lemma state_eta (s : State) :
  set_dump_image (dump_image s) (set_geometries (geometries s) s) = s.
Proof. destruct s; reflexivity. Qed.

Lemma mesh_eta (m : TriangleMesh) :
  {| vertices := vertices m; vertex_colors := vertex_colors m;
     vertex_normals := vertex_normals m; triangles := triangles m |} = m.
Proof. now destruct m. Qed.

Lemma on_frame_eq vis s : on_frame vis s = framed vis s.
Proof.
  unfold on_frame, framed, align_view, mbind, Py_bind, can_render, view_print,
    aligned, shown, recolour.
  cbn.
  destruct (normal_vertex_colors s) as [colors|]; cbn; [|reflexivity].
  destruct (geometries s !! "mesh") as [mesh|]; cbn; [|reflexivity].
  destruct verbose, (render_option vis), (view_control vis); cbn;
    try reflexivity;
    match goal with
    | |- context [frame_image ?a ?b ?c] => destruct (frame_image a b c)
    end; cbn; reflexivity.
Qed.

Lemma call_eq key vis s :
  Callbacks_call key vis s =
  match on_key key s with
  | mkRun (inl e) s1 t1 => mkRun (inl e) s1 t1
  | mkRun (inr _) s1 t1 =>
      match framed vis s1 with
      | mkRun o s2 t2 => mkRun o s2 (t1 ++ t2)%list
      end
  end.
Proof.
  unfold Callbacks_call, mbind, Py_bind, bind.
  destruct (on_key key s) as [[e|[]] s1 t1]; [reflexivity|].
  now rewrite on_frame_eq.
Qed.

(** A key half that returns without a trace hands over to the frame
    half. *)
Lemma call_quiet key vis s s1 :
  on_key key s = mkRun (inr tt) s1 [] -> Callbacks_call key vis s = framed vis s1.
Proof. intros Hk. rewrite call_eq, Hk. now destruct (framed vis s1). Qed.

Lemma call_raises key vis s e s1 t1 :
  on_key key s = mkRun (inl e) s1 t1 -> Callbacks_call key vis s = mkRun (inl e) s1 t1.
Proof. intros Hk. now rewrite call_eq, Hk. Qed.

(** The frame half writes [geometries] and [dump_image] only. *)
Lemma framed_store vis s :
  exists g di, store (framed vis s) = set_dump_image di (set_geometries g s).
Proof.
  unfold framed, recolour.
  destruct (normal_vertex_colors s) as [colors|]; cbn;
    [|exists (geometries s), (dump_image s); symmetry; apply state_eta].
  destruct (geometries s !! "mesh") as [mesh|]; cbn;
    [|exists (geometries s), (dump_image s); symmetry; apply state_eta].
  destruct (can_render vis); cbn; [|eauto].
  match goal with |- context [frame_image ?a ?b ?c] => destruct (frame_image a b c) end;
    cbn; eauto.
Qed.

Lemma framed_reads {X} (f : State -> X) vis s :
  frame_blind f -> f (store (framed vis s)) = f s.
Proof. intros Hf. destruct (framed_store vis s) as (g & di & ->). apply Hf. Qed.

Lemma call_reads {X} (f : State -> X) key vis s :
  frame_blind f -> f (store (Callbacks_call key vis s)) = f (store (on_key key s)).
Proof.
  intros Hf. rewrite call_eq.
  destruct (on_key key s) as [[e|[]] s1 t1]; cbn; [reflexivity|].
  rewrite <- (framed_reads f vis s1 Hf). now destruct (framed vis s1).
Qed.

Lemma bind_keeps {A B X} (f : State -> X) (m : Py A) (k : A -> Py B) :
  (forall s, f (store (m s)) = f s) ->
  (forall a s, f (store (k a s)) = f s) ->
  forall s, f (store (bind m k s)) = f s.
Proof.
  unfold bind. intros Hm Hk s. specialize (Hm s).
  destruct (m s) as [[e|a] s1 t1]; cbn in *; [assumption|].
  specialize (Hk a s1). destruct (k a s1). cbn in *. congruence.
Qed.

Lemma play_cons vis k keys s : play vis (k :: keys) s = play vis keys (tick vis s k).
Proof. reflexivity. Qed.

Lemma play_app vis ks1 ks2 s : play vis (ks1 ++ ks2)%list s = play vis ks2 (play vis ks1 s).
Proof. apply fold_left_app. Qed.

(** ** The keys, in closed form *)

Lemma on_key_no_op s : on_key no_op s = mkRun (inr tt) s [].
Proof. reflexivity. Qed.

Lemma on_key_next_model s :
  on_key next_model s =
  let i := next_cad (cad_idx s) in
  let stem := model_stem (pascal_class s) i in
  match load_yaml_file (path_join CAD_root (stem ++ ".yaml")) !! "kpoints_3d" with
  | None => mkRun (inl (KeyError "kpoints_3d")) (set_cad_idx i s) []
  | Some kps =>
      let mesh :=
        compute_vertex_normals (read_triangle_mesh (path_join CAD_root (stem ++ ".ply"))) in
      mkRun (inr tt)
        (set_geometries (<["mesh" := mesh]> (geometries s))
           (set_normal_vertex_colors (Some (map normal_color (vertex_normals mesh)))
              (set_kpoints_3d (Some kps) (set_cad_idx i s))))
        []
  end.
Proof.
  unfold next_model, on_key, next_cad, mbind, Py_bind. eval_ord. cbn.
  destruct (cad_idx s + 1 =? 10); cbn;
    (match goal with |- context [load_yaml_file ?p !! ?k] =>
       destruct (load_yaml_file p !! k) end; cbn; [|reflexivity]);
    (destruct (geometries s !! "mesh"); cbn; [rewrite mesh_eta|]; reflexivity).
Qed.

Lemma on_key_next_example s :
  on_key next_example s =
  if dataset_index s <? 0 then mkRun (inl IndexError) s []
  else match dataset s !! Z.to_nat (dataset_index s) with
       | None => mkRun (inl IndexError) s []
       | Some ex =>
           mkRun (inr tt)
             (set_dataset_index (dataset_index s + 1) (set_texture_src (Some ex) s)) []
       end.
Proof.
  unfold next_example, on_key, dataset_getitem, mbind, Py_bind. eval_ord. cbn.
  destruct (dataset_index s <? 0); cbn; [reflexivity|].
  destruct (dataset s !! Z.to_nat (dataset_index s)); reflexivity.
Qed.

Lemma on_key_dump_frame s :
  on_key dump_frame s =
  match F.trunc (radius s) with
  | None =>
      mkRun (inl (if F.is_nan (radius s)
                  then ValueError "cannot convert float NaN to integer"
                  else OverflowError)) s [Mkdir dump_dir]
  | Some rad =>
      match dump_image s with
      | None => mkRun (inl (KeyError "dump_image")) s [Mkdir dump_dir]
      | Some img =>
          let path :=
            path_join dump_dir
              (dump_name (dump_id s) (90 - angle_y s) ((angle_z s + 90) mod 360) rad
               ++ ".png") in
          mkRun (inr tt) (set_dump_id (dump_id s + 1) s)
            [Mkdir dump_dir; Imwrite path img; PrintSaved path]
      end
  end.
Proof.
  unfold dump_frame, on_key, int_of_float, mbind, Py_bind. eval_ord. cbn.
  destruct (F.trunc (radius s)); cbn; [|reflexivity].
  destruct (dump_image s); reflexivity.
Qed.

Lemma on_key_rotate_up s :
  on_key rotate_up s = mkRun (inr tt) (set_angle_y (angle_y s + 5) s) [].
Proof. reflexivity. Qed.

Lemma on_key_rotate_down s :
  on_key rotate_down s = mkRun (inr tt) (set_angle_y (angle_y s - 5) s) [].
Proof. reflexivity. Qed.

Lemma on_key_rotate_right s :
  on_key rotate_right s = mkRun (inr tt) (set_angle_z (angle_z s + 5) s) [].
Proof. reflexivity. Qed.

Lemma on_key_rotate_left s :
  on_key rotate_left s = mkRun (inr tt) (set_angle_z (angle_z s - 5) s) [].
Proof. reflexivity. Qed.

Lemma on_key_zoom_in s :
  on_key zoom_in s = mkRun (inr tt) (set_radius (radius s + step_0_05)%float s) [].
Proof. reflexivity. Qed.

Lemma on_key_zoom_out s :
  on_key zoom_out s = mkRun (inr tt) (set_radius (radius s - step_0_05)%float s) [].
Proof. reflexivity. Qed.

(** A key outside the dispatch chain raises before anything is done. *)
Lemma on_key_unknown key s :
  ~ In key recognized -> on_key key s = mkRun (inl NotImplementedError) s [].
Proof.
  unfold recognized, no_op, dump_frame, reset_view, rotate_up, rotate_down,
    rotate_right, rotate_left, zoom_in, zoom_out, next_example, next_model, on_key.
  eval_ord. cbn [In]. intros H.
  repeat match goal with
         | |- context [key =? ?n] =>
             destruct (Z.eqb_spec key n) as [->|_]; [exfalso; apply H; tauto|]
         end.
  reflexivity.
Qed.

(** ** The viewpoint keys *)

Lemma triple_inj {X Y W} (a a' : X) (b b' : Y) (c c' : W) :
  (a, b, c) = (a', b', c') -> a = a' /\ b = b' /\ c = c'.
Proof. now intros [= -> -> ->]. Qed.

Lemma viewpoint_inv s (y z : Z) (r : float) :
  viewpoint s = (y, z, r) -> angle_y s = y /\ angle_z s = z /\ radius s = r.
Proof. apply triple_inj. Qed.

Lemma viewpoint_blind : frame_blind viewpoint.
Proof. now intros g di s. Qed.

Lemma play_rotate_right vis n s :
  viewpoint (play vis (replicate n rotate_right) s)
  = (angle_y s, angle_z s + 5 * Z.of_nat n, radius s).
Proof.
  revert s. induction n as [|n IH]; intros s.
  - cbn. unfold viewpoint. do 2 f_equal. lia.
  - change (replicate (S n) rotate_right) with (rotate_right :: replicate n rotate_right).
    rewrite play_cons, IH. unfold tick.
    pose proof (call_reads viewpoint rotate_right vis s viewpoint_blind) as Hv.
    rewrite on_key_rotate_right in Hv.
    destruct (viewpoint_inv _ _ _ _ Hv) as (-> & -> & ->).
    cbn [store angle_y angle_z radius set_angle_z]. do 2 f_equal. lia.
Qed.

Lemma play_zoom_out vis n s :
  radius (play vis (replicate n zoom_out) s)
  = Nat.iter n (fun r => (r - step_0_05)%float) (radius s).
Proof.
  revert s. induction n as [|n IH]; intros s; [reflexivity|].
  change (replicate (S n) zoom_out) with (zoom_out :: replicate n zoom_out).
  rewrite play_cons, IH, Nat.iter_succ_r. unfold tick.
  rewrite (call_reads radius zoom_out vis s) by now intros ? ? ?.
  now rewrite on_key_zoom_out.
Qed.

(** [np.clip(radius, 0, radius)] gives back [radius], whatever its sign. *)
Lemma clip_radius_noop (r : float) : F.clip r 0 r = r.
Proof.
  unfold F.clip, F.maximum, F.minimum.
  destruct (F.is_nan r) eqn:Hn; [now rewrite Hn|].
  destruct (PrimFloat.ltb 0 r) eqn:H0.
  - rewrite Hn. now destruct (PrimFloat.ltb r r).
  - change (F.is_nan 0) with false. cbv iota. now rewrite H0.
Qed.

Lemma clipZ_range x : -90 <= clipZ x (-90) 90 <= 90.
Proof. unfold clipZ. lia. Qed.

Lemma camera_radius s : cam_radius (camera s) = radius s.
Proof. apply clip_radius_noop. Qed.

Lemma camera_of_viewpoint s s' : viewpoint s' = viewpoint s -> camera s' = camera s.
Proof. unfold viewpoint, camera. now intros [= -> -> ->]. Qed.

(** ** What the start-up callbacks leave alone *)

Lemma next_model_keeps {X} (f : State -> X) vis s :
  frame_blind f ->
  (forall i kps nvc g s,
     f (set_geometries g (set_normal_vertex_colors nvc
          (set_kpoints_3d kps (set_cad_idx i s)))) = f s) ->
  f (store (Callbacks_call next_model vis s)) = f s.
Proof.
  intros Hb Hf. rewrite call_reads, on_key_next_model by assumption. cbv zeta.
  destruct (load_yaml_file _ !! _); cbn; [apply Hf|].
  transitivity
    (f (set_geometries (geometries s)
          (set_normal_vertex_colors (normal_vertex_colors s)
             (set_kpoints_3d (kpoints_3d s) (set_cad_idx (next_cad (cad_idx s)) s)))));
    [f_equal; now destruct s|apply Hf].
Qed.

Lemma next_example_keeps {X} (f : State -> X) vis s :
  frame_blind f ->
  (forall i ex s, f (set_dataset_index i (set_texture_src ex s)) = f s) ->
  f (store (Callbacks_call next_example vis s)) = f s.
Proof.
  intros Hb Hf. rewrite call_reads, on_key_next_example by assumption.
  destruct (dataset_index s <? 0); [reflexivity|].
  destruct (dataset s !! _); [apply Hf|reflexivity].
Qed.

Lemma no_op_keeps {X} (f : State -> X) vis s :
  frame_blind f -> f (store (Callbacks_call no_op vis s)) = f s.
Proof. intros Hb. now rewrite call_reads. Qed.

Lemma run_init_keeps {X} (f : State -> X) v s :
  frame_blind f ->
  (forall i kps nvc g s,
     f (set_geometries g (set_normal_vertex_colors nvc
          (set_kpoints_3d kps (set_cad_idx i s)))) = f s) ->
  (forall i ex s, f (set_dataset_index i (set_texture_src ex s)) = f s) ->
  f (store (run_init v s)) = f s.
Proof.
  intros Hb Hn He. revert s. unfold run_init, mbind, Py_bind.
  apply bind_keeps; [intros; now apply next_model_keeps|intros _].
  apply bind_keeps; [intros; now apply next_example_keeps|intros _].
  intros; now apply no_op_keeps.
Qed.

Lemma session_start_viewpoint v n d o :
  viewpoint (session_start v n d o) = (90, 0, 7%float).
Proof. unfold session_start. now rewrite run_init_keeps. Qed.

(** ** C1 *)

Lemma play_rotate_up vis n s :
  viewpoint (play vis (replicate n rotate_up) s)
  = (angle_y s + 5 * Z.of_nat n, angle_z s, radius s).
Proof.
  revert s. induction n as [|n IH]; intros s.
  - cbn. unfold viewpoint. do 2 f_equal. lia.
  - change (replicate (S n) rotate_up) with (rotate_up :: replicate n rotate_up).
    rewrite play_cons, IH. unfold tick.
    pose proof (call_reads viewpoint rotate_up vis s viewpoint_blind) as Hv.
    rewrite on_key_rotate_up in Hv.
    destruct (viewpoint_inv _ _ _ _ Hv) as (-> & -> & ->).
    cbn [store angle_y angle_z radius set_angle_y]. do 2 f_equal. lia.
Qed.

Lemma play_rotate_down vis n s :
  viewpoint (play vis (replicate n rotate_down) s)
  = (angle_y s - 5 * Z.of_nat n, angle_z s, radius s).
Proof.
  revert s. induction n as [|n IH]; intros s.
  - cbn. unfold viewpoint. do 2 f_equal. lia.
  - change (replicate (S n) rotate_down) with (rotate_down :: replicate n rotate_down).
    rewrite play_cons, IH. unfold tick.
    pose proof (call_reads viewpoint rotate_down vis s viewpoint_blind) as Hv.
    rewrite on_key_rotate_down in Hv.
    destruct (viewpoint_inv _ _ _ _ Hv) as (-> & -> & ->).
    cbn [store angle_y angle_z radius set_angle_y]. do 2 f_equal. lia.
Qed.

(** The elevation of the camera, by the pitch. *)
Lemma camera_elevation s :
  pascal_el (camera s) = 90 - Z.min (Z.max (angle_y s) (-90)) 90.
Proof. reflexivity. Qed.

(** C1.  The camera of every frame has azimuth [(yaw + 90) mod 360] and
    elevation [90 - clamped pitch], the clamp being to [-90, 90]: the
    elevation is [90 - pitch] for a pitch in that range, 180 for every
    pitch below it and 0 for every pitch above it.  A fresh session (yaw
    0, pitch 90, radius 7, before or after the start-up callbacks of
    [run]) has azimuth 90 and elevation 0; one [rotate_down] from it
    (pitch 85) gives elevation 5, one [rotate_up] (pitch 95) still
    elevation 0, and 37 [rotate_down] (pitch -95) elevation 180.  Eighteen
    [rotate_right] ticks add 90 to the yaw; from the fresh session they
    give yaw 90 and azimuth 180. *)
Theorem C1_azimuth_and_elevation :
  (forall s : State,
     pascal_az (camera s) = (angle_z s + 90) mod 360
     /\ pascal_el (camera s) = 90 - clipZ (angle_y s) (-90) 90
     /\ pascal_el (camera s) = 90 - Z.min (Z.max (angle_y s) (-90)) 90
     /\ (angle_y s <= -90 -> pascal_el (camera s) = 180)
     /\ (-90 <= angle_y s <= 90 -> pascal_el (camera s) = 90 - angle_y s)
     /\ (90 <= angle_y s -> pascal_el (camera s) = 0))
  /\ (forall n d o,
        viewpoint (init_state n d o) = (90, 0, 7%float)
        /\ pascal_az (camera (init_state n d o)) = 90
        /\ pascal_el (camera (init_state n d o)) = 0)
  /\ (forall v n d o,
        viewpoint (session_start v n d o) = (90, 0, 7%float)
        /\ pascal_az (camera (session_start v n d o)) = 90
        /\ pascal_el (camera (session_start v n d o)) = 0)
  /\ (forall vis v n d o,
        let fresh := session_start v n d o in
        (angle_y (play vis [rotate_down] fresh) = 85
         /\ pascal_el (camera (play vis [rotate_down] fresh)) = 5)
        /\ (angle_y (play vis [rotate_up] fresh) = 95
            /\ pascal_el (camera (play vis [rotate_up] fresh)) = 0)
        /\ (angle_y (play vis (replicate 37 rotate_down) fresh) = -95
            /\ pascal_el (camera (play vis (replicate 37 rotate_down) fresh)) = 180))
  /\ (forall vis s,
        angle_z (play vis (replicate 18 rotate_right) s) = angle_z s + 90)
  /\ (forall vis v n d o,
        let s := play vis (replicate 18 rotate_right) (session_start v n d o) in
        angle_z s = 90 /\ pascal_az (camera s) = 180).
Proof.
  split.
  { intros s. split; [reflexivity|]. split; [reflexivity|].
    split; [apply camera_elevation|]. rewrite camera_elevation.
    repeat split; intros; lia. }
  split; [intros n d o; repeat split|].
  split.
  { intros v n d o.
    rewrite (camera_of_viewpoint (init_state n d o) (session_start v n d o))
      by apply session_start_viewpoint.
    split; [apply session_start_viewpoint|]. split; reflexivity. }
  split.
  { intros vis v n d o fresh.
    destruct (viewpoint_inv _ _ _ _ (session_start_viewpoint v n d o)) as (Hy & _ & _).
    fold fresh in Hy.
    assert (Hd : forall k, angle_y (play vis (replicate k rotate_down) fresh)
                           = 90 - 5 * Z.of_nat k).
    { intros k. destruct (viewpoint_inv _ _ _ _ (play_rotate_down vis k fresh))
        as (-> & _ & _). now rewrite Hy. }
    assert (Hu : angle_y (play vis (replicate 1 rotate_up) fresh) = 95).
    { destruct (viewpoint_inv _ _ _ _ (play_rotate_up vis 1 fresh)) as (-> & _ & _).
      now rewrite Hy. }
    pose proof (Hd 1%nat) as H1. pose proof (Hd 37%nat) as H37.
    change (replicate 1 rotate_down) with [rotate_down] in H1.
    change (replicate 1 rotate_up) with [rotate_up] in Hu.
    rewrite !camera_elevation, H1, Hu, H37. repeat split. }
  split.
  { intros vis s.
    destruct (viewpoint_inv _ _ _ _ (play_rotate_right vis 18 s)) as (_ & -> & _).
    lia. }
  intros vis v n d o s.
  assert (Hz : angle_z s = 90).
  { unfold s.
    destruct (viewpoint_inv _ _ _ _
                (play_rotate_right vis 18 (session_start v n d o))) as (_ & -> & _).
    destruct (viewpoint_inv _ _ _ _ (session_start_viewpoint v n d o)) as (_ & -> & _).
    reflexivity. }
  split; [exact Hz|]. unfold camera. cbn [pascal_az]. now rewrite Hz.
Qed.

(** ** C2 *)

(** C2.  The clamped pitch of every frame lies in [-90, 90].  The radius
    of the frame is the stored radius whatever its sign: 141 [zoom_out]
    ticks after a fresh start leave the frame with a negative radius. *)
Theorem C2_radius_goes_negative :
  (forall s : State, -90 <= cam_angle_y (camera s) <= 90)
  /\ (forall s : State, cam_radius (camera s) = radius s)
  /\ (forall vis v n d o,
        let s := play vis (replicate 141 zoom_out) (session_start v n d o) in
        cam_radius (camera s) = (-0x1.9999999999050p-5)%float
        /\ PrimFloat.ltb (cam_radius (camera s)) 0 = true).
Proof.
  split; [intros s; apply clipZ_range|].
  split; [apply camera_radius|].
  intros vis v n d o s.
  assert (Hr : radius s = (-0x1.9999999999050p-5)%float).
  { unfold s. rewrite play_zoom_out.
    destruct (viewpoint_inv _ _ _ _ (session_start_viewpoint v n d o)) as (_ & _ & ->).
    vm_compute. reflexivity. }
  rewrite camera_radius, Hr. split; reflexivity.
Qed.

(** ** C3: the keypoint projector *)

Lemma ltb_leb x y : PrimFloat.ltb x y = true -> PrimFloat.leb x y = true.
Proof.
  rewrite ltb_spec, leb_spec. unfold SFltb, SFleb.
  now destruct (SFcompare _ _) as [[]|].
Qed.

Lemma clip_unit x :
  F.is_nan (F.clip x (-1) 1) = F.is_nan x /\ in_unit (F.clip x (-1) 1).
Proof.
  unfold in_unit, F.clip, F.maximum, F.minimum.
  destruct (F.is_nan x) eqn:Hn.
  - rewrite Hn. auto.
  - destruct (PrimFloat.ltb (-1) x) eqn:Hlo.
    + rewrite Hn. destruct (PrimFloat.ltb x 1) eqn:Hhi.
      * split; [exact Hn|]. right. split; now apply ltb_leb.
      * split; [reflexivity|]. right. split; reflexivity.
    + split; [reflexivity|]. right. split; reflexivity.
Qed.

(** C3, as the code has it.  Every keypoint name of the input has exactly
    one projected point; the point of a name is computed from that name's
    3D point alone: [project_points], then a division by the frame size
    [(img_w, img_h) = (128, 128)], then a clip to [-1, 1].  A coordinate is
    NaN after the clip only if it was NaN before, and otherwise lies in
    [-1, 1]: nothing is dropped. *)
Theorem C3_projector_divides_by_frame_size :
  forall (K : Intrinsic) (E : Extrinsic) (kps : gmap string Vec3),
    dom (project_kpoints K E kps) = dom kps
    /\ (forall name, project_kpoints K E kps !! name = project_kpoint K E <$> kps !! name)
    /\ (forall v,
          project_kpoint K E v
          = (F.clip ((project_points v K E).1 / 128) (-1) 1,
             F.clip ((project_points v K E).2 / 128) (-1) 1))
    /\ (forall v,
          in_unit (project_kpoint K E v).1 /\ in_unit (project_kpoint K E v).2
          /\ F.is_nan (project_kpoint K E v).1 = F.is_nan ((project_points v K E).1 / 128)
          /\ F.is_nan (project_kpoint K E v).2 = F.is_nan ((project_points v K E).2 / 128)).
Proof.
  intros K E kps.
  assert (Hp : forall v,
             project_kpoint K E v
             = (F.clip ((project_points v K E).1 / 128) (-1) 1,
                F.clip ((project_points v K E).2 / 128) (-1) 1)).
  { intros v. unfold project_kpoint. now destruct (project_points v K E). }
  unfold project_kpoints.
  split; [apply dom_fmap_L|].
  split; [intros name; apply lookup_fmap|].
  split; [exact Hp|].
  intros v. rewrite Hp. cbn [fst snd].
  destruct (clip_unit ((project_points v K E).1 / 128)) as [Hn1 Hu1].
  destruct (clip_unit ((project_points v K E).2 / 128)) as [Hn2 Hu2].
  auto.
Qed.

(** ** C5: the output compositor *)

Lemma lookup_map {X Y} (f : X -> Y) (l : list X) i : map f l !! i = f <$> l !! i.
Proof. revert i. induction l as [|x l IH]; intros [|i]; cbn; auto. Qed.

Lemma same_shape_rows (img : list (list Pixel)) (m : list (list bool)) i mrow :
  same_shape img m = true -> m !! i = Some mrow ->
  exists row, img !! i = Some row /\ length row = length mrow.
Proof.
  unfold same_shape. intros Hs Hm. apply bool_decide_eq_true in Hs.
  assert (H : map length img !! i = map length m !! i) by now rewrite Hs.
  rewrite !lookup_map, Hm in H. cbn in H.
  destruct (img !! i) as [row|]; [|discriminate].
  exists row. split; [reflexivity|]. now injection H.
Qed.

Lemma fill_row_lookup v (row srow : list Pixel) j q :
  srow !! j = Some q -> length row = length srow ->
  fill_row v row (map pixel_is_zero srow) !! j
  = if pixel_is_zero q then Some (v, v, v) else row !! j.
Proof.
  intros Hq Hlen. unfold fill_row. rewrite lookup_zip_with, lookup_map, Hq.
  destruct (row !! j) as [p|] eqn:Hp.
  - cbn. unfold fill_pixel. now destruct (pixel_is_zero q).
  - apply lookup_ge_None in Hp. apply lookup_lt_Some in Hq. lia.
Qed.

Lemma mask_assign_pixel (img src masked : list (list Pixel)) v i j q :
  mask_assign img (all_zero_mask src) v = inr masked ->
  pixel_at src i j = Some q ->
  pixel_at masked i j = if pixel_is_zero q then Some (v, v, v) else pixel_at img i j.
Proof.
  unfold mask_assign, pixel_at, all_zero_mask.
  destruct (same_shape _ _) eqn:Hs; [|discriminate]. intros [= <-].
  destruct (src !! i) as [srow|] eqn:Hsrc; [|discriminate]. intros Hq.
  assert (Hm : map (map pixel_is_zero) src !! i = Some (map pixel_is_zero srow))
    by now rewrite lookup_map, Hsrc.
  destruct (same_shape_rows _ _ _ _ Hs Hm) as (row & Hrow & Hlen).
  rewrite length_map in Hlen.
  rewrite lookup_zip_with, Hrow, Hm. cbn.
  now apply fill_row_lookup.
Qed.

Lemma hjoin_lookup (a b : list (list Pixel)) i ra rb :
  a !! i = Some ra -> b !! i = Some rb -> hjoin a b !! i = Some (ra ++ rb)%list.
Proof. intros Ha Hb. unfold hjoin. now rewrite lookup_zip_with, Ha, Hb. Qed.

Lemma hjoin_length (a b : list (list Pixel)) : length b = length a -> length (hjoin a b) = length a.
Proof. intros H. unfold hjoin. rewrite length_zip_with. lia. Qed.

(** C5.  In the masked synthesis every pixel that is exactly zero in the
    rendered normal image is white (255 in every channel) and every other
    pixel is the synthesized one; the display frame is, row by row,
    sketch, central reference, masked synthesis, original source, in that
    order.  The frame a tick composes is this composite of the four images
    of its pipeline. *)
Theorem C5_mask_and_tiling :
  (forall (src_normal sketch central net_image source out : list (list Pixel)),
     composite (all_zero_mask src_normal) sketch central net_image source = inr out ->
     exists masked,
       mask_assign net_image (all_zero_mask src_normal) 255 = inr masked
       /\ (forall i j q,
             pixel_at src_normal i j = Some q ->
             pixel_at masked i j
             = if pixel_is_zero q then Some (255, 255, 255) else pixel_at net_image i j)
       /\ length out = length sketch
       /\ (forall i rs rc rm ro,
             sketch !! i = Some rs -> central !! i = Some rc ->
             masked !! i = Some rm -> source !! i = Some ro ->
             out !! i = Some (rs ++ rc ++ rm ++ ro)%list))
  /\ (forall (s : State) cam mesh out,
        frame_image s cam mesh = inr out ->
        exists tex sketch_input net_out,
          texture_src s = Some tex
          /\ composite
               (all_zero_mask
                  (capture_normal mesh (focal s)
                     (pascal_vpoint_to_extrinsics (pascal_az cam) (pascal_el cam)
                        (cam_radius cam))))
               (to_image sketch_input LAB) (to_image (src_central tex) LAB)
               (to_image net_out LAB) (to_image (src_image tex) LAB)
             = inr out).
Proof.
  split.
  - intros src_normal sketch central net_image source out. unfold composite.
    destruct (mask_assign _ _ _) as [e|masked] eqn:Hmask; [discriminate|].
    unfold concatenate_axis1.
    destruct (forallb _ _) eqn:Hh; [|discriminate]. intros [= <-].
    cbn in Hh. rewrite !andb_true_iff, !Nat.eqb_eq in Hh.
    destruct Hh as (Hc & Hm & Ho & _).
    exists masked. split; [reflexivity|].
    split; [intros i j q; now apply mask_assign_pixel|].
    cbn [fold_left]. split.
    + assert (H1 : length (hjoin sketch central) = length sketch)
        by now apply hjoin_length.
      assert (H2 : length (hjoin (hjoin sketch central) masked) = length sketch)
        by (rewrite hjoin_length; congruence).
      rewrite hjoin_length; congruence.
    + intros i rs rc rm ro Hs Hcn Hmk Hsr.
      rewrite (hjoin_lookup _ _ i ((rs ++ rc) ++ rm)%list ro); [|
        apply hjoin_lookup; [now apply hjoin_lookup|assumption] | assumption].
      now rewrite <- !app_assoc.
  - intros s cam mesh out. unfold frame_image.
    destruct LAB; [|discriminate]. cbn [negb].
    destruct (kpoints_3d s) as [kps|]; [|discriminate].
    destruct (get_planes _ _ _) as [dkp dvs].
    destruct (texture_src s) as [tex|]; [|discriminate].
    destruct (warp_unwarp_planes _ _ _ _ _ _) as [pw pu].
    intros H. eauto.
Qed.

(** ** C4: one scalar, then the frame *)

Lemma call_returns_key key vis s :
  outcome (Callbacks_call key vis s) = inr tt -> outcome (on_key key s) = inr tt.
Proof.
  rewrite call_eq. destruct (on_key key s) as [[e|[]] s1 t1]; [discriminate|reflexivity].
Qed.

(** What a frame half that returns has done. *)
Lemma framed_returns vis s :
  outcome (framed vis s) = inr tt ->
  let r := framed vis s in
  if can_render vis then
    exists mesh out,
      geometries (store r) !! "mesh" = Some mesh
      /\ frame_image (store r) (camera (store r)) mesh = inr out
      /\ dump_image (store r) = Some out
      /\ trace r = (view_print (store r) ++ aligned ++ shown out)%list
  else
    dump_image (store r) = dump_image s
    /\ trace r = (view_print (store r) ++ [UpdateGeometry])%list.
Proof.
  unfold framed.
  destruct (normal_vertex_colors s) as [colors|]; [|discriminate].
  destruct (geometries s !! "mesh") as [mesh|]; [|discriminate].
  cbv zeta. destruct (can_render vis).
  - destruct (frame_image _ _ _) as [e|out] eqn:Hf; [discriminate|]. intros _.
    exists (set_vertex_colors colors mesh), out. cbn [store trace].
    split; [apply lookup_insert_eq|]. split; [exact Hf|]. split; reflexivity.
  - intros _. cbn [store trace]. split; reflexivity.
Qed.

Lemma assigned_on_key key s f v :
  assigned key s = Some (f, v) ->
  outcome (on_key key s) = inr tt ->
  exists s1,
    on_key key s = mkRun (inr tt) s1 []
    /\ scalar f s1 = v
    /\ (forall g, g <> f -> scalar g s1 = scalar g s)
    /\ dump_image s1 = dump_image s.
Proof.
  unfold assigned.
  repeat match goal with
         | |- context [key =? ?n] => destruct (Z.eqb_spec key n) as [->|_]
         end;
    try discriminate; intros [= <- <-].
  - rewrite on_key_rotate_up. intros _. eexists. split; [reflexivity|].
    repeat split. now intros [].
  - rewrite on_key_rotate_down. intros _. eexists. split; [reflexivity|].
    repeat split. now intros [].
  - rewrite on_key_rotate_right. intros _. eexists. split; [reflexivity|].
    repeat split. now intros [].
  - rewrite on_key_rotate_left. intros _. eexists. split; [reflexivity|].
    repeat split. now intros [].
  - rewrite on_key_zoom_in. intros _. eexists. split; [reflexivity|].
    repeat split. now intros [].
  - rewrite on_key_zoom_out. intros _. eexists. split; [reflexivity|].
    repeat split. now intros [].
  - rewrite on_key_next_example.
    destruct (dataset_index s <? 0); [discriminate|].
    destruct (dataset s !! _); [|discriminate].
    intros _. eexists. split; [reflexivity|]. repeat split. now intros [].
  - rewrite on_key_next_model. cbv zeta.
    destruct (load_yaml_file _ !! _); [|discriminate].
    intros _. eexists. split; [reflexivity|]. repeat split. now intros [].
Qed.

Lemma scalar_blind g : frame_blind (scalar g).
Proof. intros ? ? ?. now destruct g. Qed.

(** C4, as the code has it.  A viewpoint key or a selection key whose
    key half returns has written exactly one scalar of the state, the one
    [assigned] names; every other scalar is as before, also when the frame
    half then raises.  When the tick returns, the frame has been composed,
    stored and shown (after [align_view]) if the visualizer has a render
    option and a view control; if not, the tick ended at the guard and no
    frame was composed. *)
Theorem C4_one_scalar_then_frame :
  forall key vis (s : State) f v,
    assigned key s = Some (f, v) ->
    outcome (on_key key s) = inr tt ->
    let r := Callbacks_call key vis s in
    scalar f (store r) = v
    /\ (forall g, g <> f -> scalar g (store r) = scalar g s)
    /\ (outcome r = inr tt ->
        if can_render vis then
          exists mesh out,
            geometries (store r) !! "mesh" = Some mesh
            /\ frame_image (store r) (camera (store r)) mesh = inr out
            /\ dump_image (store r) = Some out
            /\ trace r = (view_print (store r) ++ aligned ++ shown out)%list
        else
          dump_image (store r) = dump_image s
          /\ trace r = (view_print (store r) ++ [UpdateGeometry])%list).
Proof.
  intros key vis s f v Ha Hk0 r.
  destruct (assigned_on_key key s f v Ha Hk0) as (s1 & Hk & Hf & Hg & Hd).
  assert (Hc : r = framed vis s1) by (unfold r; now apply call_quiet).
  split; [|split].
  - unfold r. rewrite (call_reads (scalar f)) by apply scalar_blind. now rewrite Hk.
  - intros g Hne. unfold r. rewrite (call_reads (scalar g)) by apply scalar_blind.
    rewrite Hk. now apply Hg.
  - intros Hr. rewrite Hc in Hr |- *.
    pose proof (framed_returns vis s1 Hr) as H. cbv zeta in H.
    destruct (can_render vis); [exact H|]. now rewrite <- Hd.
Qed.

(** ** C6: dumping the frame *)

Lemma framed_keeps_frame vis s :
  is_Some (dump_image s) -> is_Some (dump_image (store (framed vis s))).
Proof.
  intros H. unfold framed.
  destruct (normal_vertex_colors s); [|assumption].
  destruct (geometries s !! "mesh"); [|assumption].
  cbv zeta. destruct (can_render vis); [|assumption].
  destruct (frame_image _ _ _); [assumption|]. cbn. eauto.
Qed.

Lemma dump_frame_tick vis s img rad :
  dump_image s = Some img -> F.trunc (radius s) = Some rad ->
  let r := Callbacks_call dump_frame vis s in
  viewpoint (store r) = viewpoint s
  /\ dump_id (store r) = dump_id s + 1
  /\ is_Some (dump_image (store r))
  /\ dumped (dump_path s (dump_id s) rad) img (trace r).
Proof.
  intros Hi Hr r.
  assert (Hk : on_key dump_frame s
               = mkRun (inr tt) (set_dump_id (dump_id s + 1) s)
                   [Mkdir dump_dir; Imwrite (dump_path s (dump_id s) rad) img;
                    PrintSaved (dump_path s (dump_id s) rad)])
    by now rewrite on_key_dump_frame, Hr, Hi.
  split; [|split; [|split]].
  - unfold r. rewrite (call_reads viewpoint) by apply viewpoint_blind. now rewrite Hk.
  - unfold r. rewrite (call_reads dump_id) by now intros ? ? ?. now rewrite Hk.
  - unfold r. rewrite call_eq, Hk.
    assert (H : is_Some (dump_image (store (framed vis (set_dump_id (dump_id s + 1) s)))))
      by (apply framed_keeps_frame; cbn; eauto).
    now destruct (framed vis _).
  - unfold r, dumped. rewrite call_eq, Hk. destruct (framed vis _) as [o s2 t2].
    cbn. eauto.
Qed.

(** C6, as the code has it.  In a state that holds a composited frame, a
    [dump_frame] tick leaves yaw, pitch and radius as they are, writes the
    stored frame to
    [{dump_id:03d}_el_{el:03d}_az_{az:03d}_rad_{rad:03d}.png] in the dump
    directory and adds one to the dump counter; two such ticks in a row
    write under consecutive dump indices, and the counter of a session
    starts at 0.  In a state that holds no frame the tick creates the dump
    directory and raises [KeyError]: nothing is written and the counter
    stays. *)
Theorem C6_dump_frame :
  forall vis (s : State) rad,
    F.trunc (radius s) = Some rad ->
    let r := Callbacks_call dump_frame vis s in
    match dump_image s with
    | Some img =>
        viewpoint (store r) = viewpoint s
        /\ dump_id (store r) = dump_id s + 1
        /\ dumped (dump_path s (dump_id s) rad) img (trace r)
        /\ (exists img2 t1 t2,
              traces vis [dump_frame; dump_frame] s = [t1; t2]
              /\ dumped (dump_path s (dump_id s) rad) img t1
              /\ dumped (dump_path s (dump_id s + 1) rad) img2 t2)
        /\ viewpoint (play vis [dump_frame; dump_frame] s) = viewpoint s
        /\ dump_id (play vis [dump_frame; dump_frame] s) = dump_id s + 2
    | None => r = mkRun (inl (KeyError "dump_image")) s [Mkdir dump_dir]
    end
    /\ dump_name (dump_id s) (90 - angle_y s) ((angle_z s + 90) mod 360) rad
       = fmt03d (dump_id s) ++ "_el_" ++ fmt03d (90 - angle_y s)
         ++ "_az_" ++ fmt03d ((angle_z s + 90) mod 360) ++ "_rad_" ++ fmt03d rad
    /\ (forall v n d o, dump_id (session_start v n d o) = 0)
    /\ fmt03d 0 = "000" /\ fmt03d 1 = "001".
Proof.
  intros vis s rad Hr r.
  split; [|repeat split; intros v n d o; unfold session_start; now rewrite run_init_keeps].
  destruct (dump_image s) as [img|] eqn:Hi.
  2:{ unfold r. apply call_raises. now rewrite on_key_dump_frame, Hr, Hi. }
  destruct (dump_frame_tick vis s img rad Hi Hr) as (Hv & Hd & [img2 Hi2] & Ht).
  fold r in Hv, Hd, Hi2, Ht.
  assert (Hr2 : F.trunc (radius (store r)) = Some rad).
  { destruct (viewpoint_inv _ _ _ _ Hv) as (_ & _ & ->). exact Hr. }
  destruct (dump_frame_tick vis (store r) img2 rad Hi2 Hr2) as (Hv2 & Hd2 & _ & Ht2).
  assert (Hp : dump_path (store r) (dump_id (store r)) rad = dump_path s (dump_id s + 1) rad).
  { unfold dump_path. destruct (viewpoint_inv _ _ _ _ Hv) as (-> & -> & _).
    now rewrite Hd. }
  rewrite Hp in Ht2.
  repeat split; try assumption.
  - exists img2, (trace r), (trace (Callbacks_call dump_frame vis (store r))).
    repeat split; assumption.
  - cbn [play fold_left]. unfold tick. fold r. congruence.
  - cbn [play fold_left]. unfold tick. fold r. rewrite Hd2, Hd. lia.
Qed.

(** ** C7: the next CAD model *)

Lemma next_cad_mod i : 0 <= i < 10 -> next_cad i = (i + 1) mod 10.
Proof.
  intros H. unfold next_cad. destruct (Z.eqb_spec (i + 1) 10) as [->|Hne].
  - reflexivity.
  - rewrite Z.mod_small; lia.
Qed.

Lemma next_cad_range i : 0 <= i < 10 -> 0 <= next_cad i < 10.
Proof. intros H. unfold next_cad. destruct (Z.eqb_spec (i + 1) 10); lia. Qed.

Lemma next_model_cad_idx vis s :
  cad_idx (store (Callbacks_call next_model vis s)) = next_cad (cad_idx s).
Proof.
  rewrite (call_reads cad_idx) by now intros ? ? ?.
  rewrite on_key_next_model. cbv zeta. now destruct (load_yaml_file _ !! _).
Qed.

Lemma play_next_model vis n s :
  cad_idx (play vis (replicate n next_model) s) = Nat.iter n next_cad (cad_idx s).
Proof.
  revert s. induction n as [|n IH]; intros s; [reflexivity|].
  change (replicate (S n) next_model) with (next_model :: replicate n next_model).
  rewrite play_cons, IH, Nat.iter_succ_r. unfold tick. now rewrite next_model_cad_idx.
Qed.

Lemma ten_next_cad i : 0 <= i < 10 -> Nat.iter 10 next_cad i = i.
Proof.
  intros H.
  assert (Hi : i = 0 \/ i = 1 \/ i = 2 \/ i = 3 \/ i = 4 \/ i = 5 \/ i = 6
               \/ i = 7 \/ i = 8 \/ i = 9) by lia.
  repeat destruct Hi as [->|Hi]; try reflexivity. now subst.
Qed.

(** The file stem of a catalog model, digit by digit. *)
Lemma model_stem_digit cls i :
  0 <= i < 10 ->
  model_stem cls i
  = "pascal_" ++ cls ++ "_cad_00" ++ String (Ascii.ascii_of_N (48 + Z.to_N i)) "".
Proof.
  intros H.
  assert (Hi : i = 0 \/ i = 1 \/ i = 2 \/ i = 3 \/ i = 4 \/ i = 5 \/ i = 6
               \/ i = 7 \/ i = 8 \/ i = 9) by lia.
  repeat destruct Hi as [->|Hi]; try reflexivity. now subst.
Qed.

(** C7.  With the CAD index in the catalog's range, [next_model] moves it
    to [(index + 1) mod 10] and loads the keypoints of the model with the
    new index from that model's metadata file,
    [CAD_root/pascal_<class>_cad_00<new index>.yaml] (a file without them
    is a [KeyError]); ten [next_model] ticks bring the index back to where
    it was, so from index 0 back to 0. *)
Theorem C7_next_model_wraps :
  forall vis (s : State),
    0 <= cad_idx s < 10 ->
    let r := Callbacks_call next_model vis s in
    let i := (cad_idx s + 1) mod 10 in
    let stem :=
      "pascal_" ++ pascal_class s ++ "_cad_00"
      ++ String (Ascii.ascii_of_N (48 + Z.to_N i)) "" in
    let yaml_file := path_join CAD_root (stem ++ ".yaml") in
    cad_idx (store r) = i
    /\ 0 <= cad_idx (store r) < 10
    /\ model_stem (pascal_class s) (cad_idx (store r)) = stem
    /\ match load_yaml_file yaml_file !! "kpoints_3d" with
       | Some kps => kpoints_3d (store r) = Some kps
       | None => outcome r = inl (KeyError "kpoints_3d")
       end
    /\ cad_idx (play vis (replicate 10 next_model) s) = cad_idx s
    /\ model_stem "chair" 0 = "pascal_chair_cad_000"
    /\ model_stem "car" 9 = "pascal_car_cad_009".
Proof.
  intros vis s Hi r i stem yaml_file.
  assert (Hc : cad_idx (store r) = next_cad (cad_idx s)) by apply next_model_cad_idx.
  assert (Hn : next_cad (cad_idx s) = i) by now apply next_cad_mod.
  assert (Hr : 0 <= i < 10) by (rewrite <- Hn; now apply next_cad_range).
  assert (Hs : model_stem (pascal_class s) i = stem) by now apply model_stem_digit.
  split; [now rewrite Hc|].
  split; [now rewrite Hc, Hn|].
  split; [now rewrite Hc, Hn|].
  split; [|split; [|split; reflexivity]].
  - unfold yaml_file. rewrite <- Hs, <- Hn. unfold r.
    destruct (load_yaml_file _ !! _) as [kps|] eqn:Hy.
    + rewrite (call_reads kpoints_3d) by now intros ? ? ?.
      rewrite on_key_next_model. cbv zeta. now rewrite Hy.
    + rewrite call_eq, on_key_next_model. cbv zeta. now rewrite Hy.
  - rewrite play_next_model. now apply ten_next_cad.
Qed.

(** In a session the CAD index never leaves the catalog's range. *)
Lemma cad_idx_call_range key vis s :
  0 <= cad_idx s < 10 -> 0 <= cad_idx (store (Callbacks_call key vis s)) < 10.
Proof.
  intros H. rewrite (call_reads cad_idx) by now intros ? ? ?.
  destruct (decide (key = next_model)) as [->|Hn].
  - rewrite on_key_next_model. cbv zeta.
    destruct (load_yaml_file _ !! _); cbn; now apply next_cad_range.
  - destruct (decide (key = next_example)) as [->|He].
    { rewrite on_key_next_example. destruct (_ <? _); [assumption|].
      now destruct (dataset s !! _). }
    destruct (decide (key = dump_frame)) as [->|Hd].
    { rewrite on_key_dump_frame. destruct (F.trunc _); [|assumption].
      now destruct (dump_image s). }
    revert Hn He Hd. unfold next_model, next_example, dump_frame, on_key. eval_ord.
    intros Hn He Hd.
    repeat match goal with
           | |- context [key =? ?n] => destruct (Z.eqb_spec key n) as [->|_]
           end; try assumption; congruence.
Qed.

Lemma cad_idx_in_range vis keys v n d o :
  0 <= cad_idx (play vis keys (session_start v n d o)) < 10.
Proof.
  assert (H0 : 0 <= cad_idx (session_start v n d o) < 10).
  { unfold session_start, run_init, mbind, Py_bind.
    assert (Hb : forall {A B} (m : Py A) (k : A -> Py B),
               (forall s, 0 <= cad_idx s < 10 -> 0 <= cad_idx (store (m s)) < 10) ->
               (forall a s, 0 <= cad_idx s < 10 -> 0 <= cad_idx (store (k a s)) < 10) ->
               forall s, 0 <= cad_idx s < 10 -> 0 <= cad_idx (store (bind m k s)) < 10).
    { intros A B m k Hm Hk s Hs. unfold bind. specialize (Hm s Hs).
      destruct (m s) as [[e|a] s1 t1]; cbn in *; [assumption|].
      specialize (Hk a s1 Hm). now destruct (k a s1). }
    apply Hb; [intros; now apply cad_idx_call_range| |cbn; lia].
    intros _. apply Hb; intros; now apply cad_idx_call_range. }
  revert H0. generalize (session_start v n d o).
  induction keys as [|k keys IH]; intros s Hs; [exact Hs|].
  rewrite play_cons. apply IH. now apply cad_idx_call_range.
Qed.

(** ** C9: the no-op tick *)

Lemma recolour_idem colors mesh (s : State) :
  recolour colors (set_vertex_colors colors mesh) (recolour colors mesh s)
  = recolour colors mesh s.
Proof.
  unfold recolour, set_geometries. cbn [geometries set_vertex_colors vertices
    vertex_colors vertex_normals triangles]. cbn. now rewrite insert_insert_eq.
Qed.

Lemma framed_idem vis s : framed vis (store (framed vis s)) = framed vis s.
Proof.
  unfold framed at 2 3.
  destruct (normal_vertex_colors s) as [colors|] eqn:Hc;
    [|cbn [store]; unfold framed; now rewrite Hc].
  destruct (geometries s !! "mesh") as [mesh|] eqn:Hm;
    [|cbn [store]; unfold framed; now rewrite Hc, Hm].
  cbv zeta.
  assert (Hs1 : framed vis (recolour colors mesh s)
                = if can_render vis then
                    match frame_image (recolour colors mesh s)
                            (camera (recolour colors mesh s))
                            (set_vertex_colors colors mesh) with
                    | inl e => mkRun (inl e) (recolour colors mesh s)
                                 (view_print (recolour colors mesh s) ++ aligned)%list
                    | inr out =>
                        mkRun (inr tt) (set_dump_image (Some out) (recolour colors mesh s))
                          (view_print (recolour colors mesh s) ++ aligned ++ shown out)%list
                    end
                  else mkRun (inr tt) (recolour colors mesh s)
                         (view_print (recolour colors mesh s) ++ [UpdateGeometry])%list).
  { unfold framed.
    replace (normal_vertex_colors (recolour colors mesh s)) with (Some colors)
      by (symmetry; exact Hc).
    replace (geometries (recolour colors mesh s) !! "mesh")
      with (Some (set_vertex_colors colors mesh))
      by (symmetry; apply lookup_insert_eq).
    cbv zeta. now rewrite recolour_idem. }
  destruct (can_render vis) eqn:Hr.
  - destruct (frame_image _ _ _) as [e|out] eqn:Hf; cbn [store].
    + exact Hs1.
    + unfold framed.
      replace (normal_vertex_colors (set_dump_image (Some out) (recolour colors mesh s)))
        with (Some colors) by (symmetry; exact Hc).
      replace (geometries (set_dump_image (Some out) (recolour colors mesh s)) !! "mesh")
        with (Some (set_vertex_colors colors mesh))
        by (symmetry; apply lookup_insert_eq).
      cbv zeta. rewrite Hr.
      change (recolour colors (set_vertex_colors colors mesh)
                (set_dump_image (Some out) (recolour colors mesh s)))
        with (set_dump_image (Some out)
                (recolour colors (set_vertex_colors colors mesh) (recolour colors mesh s))).
      rewrite recolour_idem.
      change (frame_image (set_dump_image (Some out) (recolour colors mesh s))
                (camera (set_dump_image (Some out) (recolour colors mesh s))))
        with (frame_image (recolour colors mesh s) (camera (recolour colors mesh s))).
      change (set_vertex_colors colors (set_vertex_colors colors mesh))
        with (set_vertex_colors colors mesh).
      rewrite Hf. reflexivity.
  - cbn [store]. exact Hs1.
Qed.

Lemma no_op_call vis s : Callbacks_call no_op vis s = framed vis s.
Proof. now apply call_quiet. Qed.

(** C9, as the code has it.  A [no_op] tick writes nothing but what the
    frame half of every tick writes: the mesh colours, set again from
    [normal_vertex_colors], and the stored frame [dump_image].  A second
    [no_op] tick returns the same result, shows the same frame and changes
    nothing at all, and so does every further one. *)
Theorem C9_no_op_settles :
  forall vis (s : State),
    let r := Callbacks_call no_op vis s in
    (exists g di, store r = set_dump_image di (set_geometries g s))
    /\ Callbacks_call no_op vis (store r) = r
    /\ (forall n,
          play vis (replicate (S n) no_op) s = store r
          /\ outcomes vis (replicate (S n) no_op) s = replicate (S n) (outcome r)
          /\ traces vis (replicate (S n) no_op) s = replicate (S n) (trace r)).
Proof.
  intros vis s r.
  assert (Hi : Callbacks_call no_op vis (store r) = r)
    by (unfold r; rewrite !no_op_call; apply framed_idem).
  split; [unfold r; rewrite no_op_call; apply framed_store|].
  split; [exact Hi|].
  assert (Hn : forall n,
             play vis (replicate n no_op) (store r) = store r
             /\ outcomes vis (replicate n no_op) (store r) = replicate n (outcome r)
             /\ traces vis (replicate n no_op) (store r) = replicate n (trace r)).
  { induction n as [|n (IH1 & IH2 & IH3)]; [repeat split|].
    change (replicate (S n) no_op) with (no_op :: replicate n no_op).
    rewrite play_cons. unfold tick. cbn [outcomes traces]. rewrite Hi.
    rewrite IH1, IH2, IH3. repeat split. }
  intros n. destruct (Hn n) as (H1 & H2 & H3).
  change (replicate (S n) no_op) with (no_op :: replicate n no_op).
  rewrite play_cons. unfold tick. cbn [outcomes traces]. fold r.
  rewrite H1, H2, H3. repeat split.
Qed.

(** ** C10: the next dataset example *)

Lemma next_example_end vis s :
  Z.of_nat (length (dataset s)) <= dataset_index s ->
  Callbacks_call next_example vis s = mkRun (inl IndexError) s [].
Proof.
  intros H. apply call_raises. rewrite on_key_next_example.
  destruct (dataset_index s <? 0); [reflexivity|].
  rewrite (proj2 (lookup_ge_None (dataset s) (Z.to_nat (dataset_index s)))) by lia.
  reflexivity.
Qed.

Lemma next_example_step vis s ex :
  0 <= dataset_index s ->
  dataset s !! Z.to_nat (dataset_index s) = Some ex ->
  let r := Callbacks_call next_example vis s in
  texture_src (store r) = Some ex
  /\ dataset_index (store r) = dataset_index s + 1
  /\ dataset (store r) = dataset s.
Proof.
  intros H0 Hex r.
  assert (Hk : on_key next_example s
               = mkRun (inr tt)
                   (set_dataset_index (dataset_index s + 1) (set_texture_src (Some ex) s)) []).
  { rewrite on_key_next_example, Hex.
    destruct (Z.ltb_spec (dataset_index s) 0); [lia|reflexivity]. }
  unfold r. repeat split.
  - rewrite (call_reads texture_src) by now intros ? ? ?. now rewrite Hk.
  - rewrite (call_reads dataset_index) by now intros ? ? ?. now rewrite Hk.
  - rewrite (call_reads dataset) by now intros ? ? ?. now rewrite Hk.
Qed.

Lemma play_next_example vis k s :
  0 <= dataset_index s ->
  dataset_index s + Z.of_nat k <= Z.of_nat (length (dataset s)) ->
  dataset_index (play vis (replicate k next_example) s) = dataset_index s + Z.of_nat k
  /\ dataset (play vis (replicate k next_example) s) = dataset s.
Proof.
  revert s. induction k as [|k IH]; intros s H0 Hk.
  - cbn. split; [lia|reflexivity].
  - change (replicate (S k) next_example) with (next_example :: replicate k next_example).
    rewrite play_cons. unfold tick.
    destruct (dataset s !! Z.to_nat (dataset_index s)) as [ex|] eqn:Hex.
    + destruct (next_example_step vis s ex H0 Hex) as (_ & Hi & Hd).
      destruct (IH (store (Callbacks_call next_example vis s))) as [-> ->];
        rewrite ?Hi, ?Hd; try lia.
      split; [lia|reflexivity].
    + apply lookup_ge_None in Hex. lia.
Qed.

(** C10.  [next_example] reads the record at the current dataset index
    and then adds one to the index: at index 0, where a session starts, it
    selects record 0.  Nothing wraps the index: once it has reached the
    number of records the tick raises [IndexError] and leaves the state as
    it was, so every later [next_example] raises as well. *)
Theorem C10_next_example_runs_off_the_end :
  forall vis (s : State),
    0 <= dataset_index s ->
    let r := Callbacks_call next_example vis s in
    match dataset s !! Z.to_nat (dataset_index s) with
    | Some ex =>
        texture_src (store r) = Some ex /\ dataset_index (store r) = dataset_index s + 1
    | None => r = mkRun (inl IndexError) s []
    end
    /\ (dataset_index s = 0 ->
        match dataset s !! 0%nat with
        | Some ex => texture_src (store r) = Some ex
        | None => r = mkRun (inl IndexError) s []
        end)
    /\ (forall n d o, dataset_index (init_state n d o) = 0)
    /\ (Z.of_nat (length (dataset s)) <= dataset_index s ->
        forall k,
          play vis (replicate k next_example) s = s
          /\ outcomes vis (replicate k next_example) s = replicate k (inl IndexError))
    /\ (let s' :=
          play vis
            (replicate (length (dataset s) - Z.to_nat (dataset_index s)) next_example) s in
        dataset_index s <= Z.of_nat (length (dataset s)) ->
        dataset_index s' = Z.of_nat (length (dataset s))
        /\ Callbacks_call next_example vis s' = mkRun (inl IndexError) s' []).
Proof.
  intros vis s H0 r.
  assert (H1 : match dataset s !! Z.to_nat (dataset_index s) with
               | Some ex =>
                   texture_src (store r) = Some ex
                   /\ dataset_index (store r) = dataset_index s + 1
               | None => r = mkRun (inl IndexError) s []
               end).
  { destruct (dataset s !! Z.to_nat (dataset_index s)) as [ex|] eqn:Hex.
    - destruct (next_example_step vis s ex H0 Hex) as (Ht & Hi & _). now split.
    - apply next_example_end. apply lookup_ge_None in Hex. lia. }
  split; [exact H1|].
  split.
  { intros Hz. rewrite Hz in H1. change (Z.to_nat 0) with 0%nat in H1.
    destruct (dataset s !! 0%nat); [apply H1|exact H1]. }
  split; [reflexivity|].
  split.
  { intros Hend. induction k as [|k (IH1 & IH2)]; [split; reflexivity|].
    change (replicate (S k) next_example) with (next_example :: replicate k next_example).
    rewrite play_cons. unfold tick. cbn [outcomes].
    rewrite (next_example_end vis s Hend). cbn [store outcome].
    rewrite IH1, IH2. split; reflexivity. }
  intros s' Hle.
  destruct (play_next_example vis
              (length (dataset s) - Z.to_nat (dataset_index s)) s H0) as [Hi Hd];
    [lia|].
  fold s' in Hi, Hd.
  assert (Hs' : dataset_index s' = Z.of_nat (length (dataset s))) by lia.
  split; [exact Hs'|]. apply next_example_end. rewrite Hd. lia.
Qed.

End SessionFacts.


(** ** The definitions at work *)

Example fmt03d_runs :
  fmt03d 0 = "000" /\ fmt03d 7 = "007" /\ fmt03d 90 = "090" /\ fmt03d 355 = "355"
  /\ fmt03d (-5) = "-05" /\ fmt03d 1234 = "1234".
Proof. repeat split. Qed.

Example clip_runs :
  F.clip 7 0 7 = 7%float /\ F.clip (0 - step_0_05) 0 (0 - step_0_05) = (0 - step_0_05)%float
  /\ F.clip 200 (-1) 1 = 1%float /\ F.clip (-3) (-1) 1 = (-1)%float
  /\ F.clip 0.5 (-1) 1 = 0.5%float /\ clipZ 95 (-90) 90 = 90 /\ clipZ (-95) (-90) 90 = -90.
Proof. repeat split. Qed.

Example trunc_runs :
  F.trunc 7 = Some 7 /\ F.trunc (7 - step_0_05) = Some 6
  /\ F.trunc (0 - step_0_05) = Some 0 /\ F.trunc PrimFloat.infinity = None.
Proof. repeat split. Qed.

Example toy_start_runs :
  cad_idx toy_start = 1 /\ dataset_index toy_start = 1
  /\ texture_src toy_start = Some (toy_example 1) /\ dump_image toy_start = None.
Proof. vm_compute. repeat split. Qed.

Example toy_shown_runs : dump_image toy_shown = Some toy_frame.
Proof. vm_compute. reflexivity. Qed.

(** ** Instances and counterexamples *)

(** C3: the keypoint at the origin projects to the principal point
    (64, 64); the code gives it the coordinates (0.5, 0.5), a division by
    half the frame size would give (1, 1). *)
Lemma C3_counterexample :
  let K := intrinsic_matrix (Collab := toy) 1000 64 64 in
  let E := pascal_vpoint_to_extrinsics (Collab := toy) 90 0 7 in
  project_points (Collab := toy) (0, 0, 0)%float K E = (64, 64)%float
  /\ project_kpoints (C := toy) K E {[ "seat" := (0, 0, 0)%float ]} !! "seat"
     = Some (0.5, 0.5)%float
  /\ project_kpoint_half_frame (C := toy) K E (0, 0, 0)%float = (1, 1)%float
  /\ project_kpoint (C := toy) K E (0, 0, 0)%float
     <> project_kpoint_half_frame (C := toy) K E (0, 0, 0)%float.
Proof.
  repeat split.
  intros H. apply (f_equal (fun p => PrimFloat.eqb (fst p) 1)) in H.
  vm_compute in H. discriminate H.
Qed.

(** C4: the [next_model] callback that [run] calls on a visualizer
    without a window returns after writing the CAD index, and composes no
    frame; and a [next_example] at the end of the dataset raises and
    writes no scalar at all. *)
Lemma C4_counterexample :
  let r := Callbacks_call (C := toy) (args := toy_args) next_model bare_visualizer toy_init in
  let s_end := play (C := toy) (args := toy_args) live_visualizer [next_example] toy_start in
  (outcome r = inr tt /\ cad_idx (store r) = 1 /\ trace r = [UpdateGeometry]
   /\ ~ rerendered r)
  /\ (dataset_index s_end = 2
      /\ Callbacks_call (C := toy) (args := toy_args) next_example live_visualizer s_end
         = mkRun (inl IndexError) s_end []).
Proof.
  split; [|split; vm_compute; reflexivity].
  repeat split.
  intros (out & Hin & _). vm_compute in Hin. destruct Hin as [H|[]]. discriminate H.
Qed.

(** C6: straight after start-up the session holds no composited frame; a
    [dump_frame] tick then creates the dump directory and raises
    [KeyError]: no file is written and the dump counter stays at 0. *)
Lemma C6_counterexample :
  let r := Callbacks_call (C := toy) (args := toy_args) dump_frame live_visualizer
             toy_start in
  dump_image toy_start = None
  /\ r = mkRun (inl (KeyError "dump_image")) toy_start [Mkdir "/tmp"]
  /\ written (trace r) = []
  /\ dump_id (store r) = 0
  /\ dump_id (store r) <> dump_id toy_start + 1.
Proof.
  repeat split. vm_compute. discriminate.
Qed.

(** C9: the first [no_op] tick on a visualizer with a window stores the
    frame it composed: the state is not the one it started from. *)
Lemma C9_counterexample :
  let r := Callbacks_call (C := toy) (args := toy_args) no_op live_visualizer toy_start in
  outcome r = inr tt
  /\ dump_image toy_start = None
  /\ dump_image (store r) = Some toy_frame
  /\ store r <> toy_start.
Proof.
  repeat split.
  intros H. apply (f_equal dump_image) in H. vm_compute in H. discriminate H.
Qed.

Lemma C4_witness :
  assigned rotate_right toy_start = Some (AngleZ, inl 5)
  /\ outcome (on_key (C := toy) (args := toy_args) rotate_right toy_start) = inr tt
  /\ scalar AngleZ
       (store (Callbacks_call (C := toy) (args := toy_args) rotate_right live_visualizer
                 toy_start)) = inl 5.
Proof.
  assert (H1 : assigned rotate_right toy_start = Some (AngleZ, inl 5))
    by (vm_compute; reflexivity).
  assert (H2 : outcome (on_key (C := toy) (args := toy_args) rotate_right toy_start)
               = inr tt)
    by (vm_compute; reflexivity).
  split; [exact H1|]. split; [exact H2|].
  exact (proj1 (C4_one_scalar_then_frame (C := toy) (args := toy_args)
                  rotate_right live_visualizer toy_start AngleZ (inl 5) H1 H2)).
Defined.

Lemma C5_witness :
  composite (all_zero_mask [[(0, 0, 0); (128, 128, 255)]])
    [[(0, 0, 0); (128, 128, 255)]] [[(1, 1, 1); (1, 1, 1)]]
    [[(10, 20, 30); (40, 50, 60)]] [[(2, 2, 2); (2, 2, 2)]]
  = inr toy_frame
  /\ exists masked,
       mask_assign [[(10, 20, 30); (40, 50, 60)]]
         (all_zero_mask [[(0, 0, 0); (128, 128, 255)]]) 255 = inr masked
       /\ pixel_at masked 0 0 = Some (255, 255, 255)
       /\ pixel_at masked 0 1 = Some (40, 50, 60).
Proof.
  assert (H : composite (all_zero_mask [[(0, 0, 0); (128, 128, 255)]])
                [[(0, 0, 0); (128, 128, 255)]] [[(1, 1, 1); (1, 1, 1)]]
                [[(10, 20, 30); (40, 50, 60)]] [[(2, 2, 2); (2, 2, 2)]]
              = inr toy_frame) by reflexivity.
  split; [exact H|].
  destruct (proj1 (C5_mask_and_tiling (C := toy) (args := toy_args)) _ _ _ _ _ _ H)
    as (masked & Hm & Hpix & _).
  exists masked. split; [exact Hm|]. split.
  - apply (Hpix 0%nat 0%nat (0, 0, 0)). reflexivity.
  - apply (Hpix 0%nat 1%nat (128, 128, 255)). reflexivity.
Defined.

Lemma C6_witness :
  F.trunc (radius toy_shown) = Some 7
  /\ dump_image toy_shown = Some toy_frame
  /\ dump_id (store (Callbacks_call (C := toy) (args := toy_args) dump_frame
                       live_visualizer toy_shown)) = 1
  /\ dumped (args := toy_args) "/tmp/000_el_000_az_090_rad_007.png" toy_frame
       (trace (Callbacks_call (C := toy) (args := toy_args) dump_frame
                 live_visualizer toy_shown)).
Proof.
  assert (H1 : dump_image toy_shown = Some toy_frame) by (vm_compute; reflexivity).
  assert (H2 : F.trunc (radius toy_shown) = Some 7) by (vm_compute; reflexivity).
  split; [exact H2|]. split; [exact H1|].
  pose proof (proj1 (C6_dump_frame (C := toy) (args := toy_args) live_visualizer
                       toy_shown 7 H2)) as H.
  destruct H as (_ & Hd & Ht & _).
  split; [exact Hd|exact Ht].
Defined.

Lemma C7_witness :
  let s := init_state (C := catalog_toy) (args := toy_args) tt [] tt in
  let r := Callbacks_call (C := catalog_toy) (args := toy_args) next_model
             bare_visualizer s in
  0 <= cad_idx s < 10
  /\ cad_idx (store r) = 1
  /\ kpoints_3d (store r) = Some {[ "seat" := (0, 0, 0)%float ]}
  /\ cad_idx (play (C := catalog_toy) (args := toy_args) bare_visualizer
                (replicate 10 next_model) s) = 0.
Proof.
  intros s r.
  assert (H : 0 <= cad_idx s < 10) by (change (cad_idx s) with 0; lia).
  split; [exact H|].
  destruct (C7_next_model_wraps (C := catalog_toy) (args := toy_args)
              bare_visualizer s H) as (H1 & _ & _ & Hk & H10 & _).
  split; [exact H1|]. split; [exact Hk|exact H10].
Defined.

Lemma C10_witness :
  0 <= dataset_index toy_start
  /\ texture_src (store (Callbacks_call (C := toy) (args := toy_args) next_example
                           live_visualizer toy_start)) = Some (toy_example 3)
  /\ dataset_index (store (Callbacks_call (C := toy) (args := toy_args) next_example
                             live_visualizer toy_start)) = 2.
Proof.
  assert (H0 : dataset_index toy_start = 1) by (vm_compute; reflexivity).
  assert (H : 0 <= dataset_index toy_start) by (rewrite H0; lia).
  split; [exact H|].
  exact (proj1 (C10_next_example_runs_off_the_end (C := toy) (args := toy_args)
                  live_visualizer toy_start H)).
Defined.

(** * The rest of the callback, [run] and the entry point *)

Section SessionMore.

Context {C : Collab} {args : Args}.

#[local] Arguments model_stem : simpl never.
#[local] Arguments path_join : simpl never.
#[local] Arguments dump_name : simpl never.
#[local] Arguments String.append : simpl never.

(** ** Every key, case by case *)

Lemma key_cases (key : Z) :
  key = no_op \/ key = dump_frame \/ key = reset_view \/ key = rotate_up
  \/ key = rotate_down \/ key = rotate_right \/ key = rotate_left \/ key = zoom_in
  \/ key = zoom_out \/ key = next_example \/ key = next_model \/ ~ In key recognized.
Proof.
  destruct (decide (In key recognized)) as [H|H]; [|tauto].
  unfold recognized in H. cbn [In] in H.
  repeat destruct H as [<-|H]; tauto.
Qed.

Lemma on_key_reset_view s : on_key reset_view s = mkRun (inr tt) s [].
Proof. reflexivity. Qed.

Lemma writes_trans (s1 s2 s3 : State) : writes s1 s2 -> writes s2 s3 -> writes s1 s3.
Proof. intros H12 H23. induction H23; [assumption|]. eapply writes_cons; eauto. Qed.

Lemma writes_one (s s' : State) : write s s' -> writes s s'.
Proof. intros H. eapply writes_cons; [apply writes_nil|exact H]. Qed.

Lemma on_key_writes key (s : State) : writes s (store (on_key key s)).
Proof.
  destruct (key_cases key)
    as [->|[->|[->|[->|[->|[->|[->|[->|[->|[->|[->|H]]]]]]]]]]].
  - apply writes_nil.
  - rewrite on_key_dump_frame. destruct (F.trunc _); [|apply writes_nil].
    destruct (dump_image s) as [img|] eqn:Hi; [|apply writes_nil].
    apply writes_one. now apply write_dump_id with img.
  - apply writes_nil.
  - rewrite on_key_rotate_up. apply writes_one, write_angle_y. now left.
  - rewrite on_key_rotate_down. apply writes_one, (write_angle_y s (-5)). now right.
  - rewrite on_key_rotate_right. apply writes_one, write_angle_z. now left.
  - rewrite on_key_rotate_left. apply writes_one, (write_angle_z s (-5)). now right.
  - rewrite on_key_zoom_in. apply writes_one, (write_radius s true).
  - rewrite on_key_zoom_out. apply writes_one, (write_radius s false).
  - rewrite on_key_next_example.
    destruct (Z.ltb_spec (dataset_index s) 0); [apply writes_nil|].
    destruct (dataset s !! _) as [ex|] eqn:Hex; [|apply writes_nil].
    apply writes_one. now apply write_example.
  - rewrite on_key_next_model. cbv zeta.
    destruct (load_yaml_file _ !! _) as [kps|]; cbn [store].
    + eapply writes_cons; [apply writes_one, write_cad_idx|].
      apply (write_model (set_cad_idx (next_cad (cad_idx s)) s) kps).
    + apply writes_one, write_cad_idx.
  - rewrite on_key_unknown by assumption. apply writes_nil.
Qed.

Lemma framed_writes vis (s : State) : writes s (store (framed vis s)).
Proof.
  unfold framed.
  destruct (normal_vertex_colors s) as [colors|] eqn:Hc; [|apply writes_nil].
  destruct (geometries s !! "mesh") as [mesh|] eqn:Hm; [|apply writes_nil].
  cbv zeta.
  assert (H1 : writes s (recolour colors mesh s))
    by now apply writes_one, write_colours.
  destruct (can_render vis); [|exact H1].
  destruct (frame_image _ _ _) as [e|out]; [exact H1|].
  cbn [store]. eapply writes_cons; [exact H1|apply write_frame].
Qed.

Lemma call_writes key vis (s : State) : writes s (store (Callbacks_call key vis s)).
Proof.
  rewrite call_eq. pose proof (on_key_writes key s) as Hk.
  destruct (on_key key s) as [[e|[]] s1 t1]; cbn [store] in *; [exact Hk|].
  pose proof (framed_writes vis s1) as Hf.
  destruct (framed vis s1) as [o s2 t2]. cbn [store] in *.
  now apply writes_trans with s1.
Qed.

Lemma play_writes vis keys (s : State) : writes s (play vis keys s).
Proof.
  revert s. induction keys as [|k keys IH]; intros s; [apply writes_nil|].
  rewrite play_cons. eapply writes_trans; [apply call_writes|apply IH].
Qed.

Lemma bind_writes {A B} (m : Py A) (k : A -> Py B) :
  (forall s, writes s (store (m s))) ->
  (forall a s, writes s (store (k a s))) ->
  forall s, writes s (store (bind m k s)).
Proof.
  unfold bind. intros Hm Hk s. specialize (Hm s).
  destruct (m s) as [[e|a] s1 t1]; cbn [store] in *; [assumption|].
  specialize (Hk a s1). destruct (k a s1). cbn [store] in *.
  now apply writes_trans with s1.
Qed.

Lemma run_init_writes v (s : State) : writes s (store (run_init v s)).
Proof.
  revert s. unfold run_init, mbind, Py_bind.
  apply bind_writes; [intros; apply call_writes|intros _].
  apply bind_writes; [intros; apply call_writes|intros _].
  intros; apply call_writes.
Qed.

(** Every state of a session comes from the initial state of [run] by
    writes of the callback. *)
Lemma session_writes vis keys v n d o :
  writes (init_state n d o) (play vis keys (session_start v n d o)).
Proof.
  eapply writes_trans; [apply run_init_writes|apply play_writes].
Qed.

Lemma writes_invariant (P : State -> Prop) :
  (forall s s', P s -> write s s' -> P s') ->
  forall s s', P s -> writes s s' -> P s'.
Proof. intros Hstep s s' Hs Hw. induction Hw; eauto. Qed.

(** ** What a session never changes, and the ranges it keeps *)

(** X1.  No callback ever writes [focal], [pascal_class], [dataset], [net]
    or [vis_oracle]: whatever keys are pressed, known or not, and whether
    the ticks return or raise, a session keeps the values [run] gave
    them. *)
Theorem session_keeps_configuration :
  forall vis keys v n d o,
    let s := play vis keys (session_start v n d o) in
    focal s = 1000 /\ pascal_class s = arg_pascal_class
    /\ dataset s = d /\ net s = n /\ vis_oracle s = o.
Proof.
  intros vis keys v n d o s.
  apply (writes_invariant
           (fun s => focal s = 1000 /\ pascal_class s = arg_pascal_class
                     /\ dataset s = d /\ net s = n /\ vis_oracle s = o))
    with (s := init_state n d o).
  - intros s1 s2 HP Hw. destruct Hw; exact HP.
  - repeat split.
  - apply session_writes.
Qed.

(** X2.  In every state of a session the CAD index is in [0, 10), the
    dataset index is between 0 and the number of records (so the callback
    never indexes the dataset with a negative number), and the dump counter
    is not negative. *)
Theorem session_index_bounds :
  forall vis keys v n d o,
    let s := play vis keys (session_start v n d o) in
    0 <= cad_idx s < 10
    /\ 0 <= dataset_index s <= Z.of_nat (length d)
    /\ 0 <= dump_id s.
Proof.
  intros vis keys v n d o s.
  assert (H : dataset s = d
              /\ 0 <= cad_idx s < 10
              /\ 0 <= dataset_index s <= Z.of_nat (length (dataset s))
              /\ 0 <= dump_id s).
  { apply (writes_invariant
             (fun s => dataset s = d
                       /\ 0 <= cad_idx s < 10
                       /\ 0 <= dataset_index s <= Z.of_nat (length (dataset s))
                       /\ 0 <= dump_id s))
      with (s := init_state n d o).
    - intros s1 s2 (Hd & Hc & Hi & Hu) Hw.
      destruct Hw; cbn [dataset cad_idx dataset_index dump_id set_dump_id set_angle_y
        set_angle_z set_radius set_dataset_index set_texture_src set_cad_idx
        set_geometries set_normal_vertex_colors set_kpoints_3d recolour set_dump_image];
        try (repeat split; (assumption || lia)).
      + match goal with H : _ !! _ = Some _ |- _ => apply lookup_lt_Some in H end.
        repeat split; (assumption || lia).
      + pose proof (next_cad_range _ Hc). repeat split; (assumption || lia).
    - cbn. repeat split; lia.
    - apply session_writes. }
  destruct H as (Hd & Hc & Hi & Hu). rewrite Hd in Hi. auto.
Qed.

(** X3.  Pitch and yaw only ever move in steps of 5 from 90 and 0: in
    every state of a session both are whole multiples of 5 (and so are
    integers that binary64 holds exactly). *)
Theorem session_angles_are_multiples_of_5 :
  forall vis keys v n d o,
    let s := play vis keys (session_start v n d o) in
    (5 | angle_y s) /\ (5 | angle_z s).
Proof.
  intros vis keys v n d o s.
  apply (writes_invariant (fun s => (5 | angle_y s) /\ (5 | angle_z s)))
    with (s := init_state n d o).
  - intros s1 s2 [[a Ha] [b Hb]] Hw.
    destruct Hw as [| dy [->| ->] | dz [->| ->] | | | | | |];
      cbn [angle_y angle_z set_dump_id set_angle_y set_angle_z set_radius
        set_dataset_index set_texture_src set_cad_idx set_geometries
        set_normal_vertex_colors set_kpoints_3d recolour set_dump_image];
      split;
      first [ now exists a | now exists b
            | exists (a + 1); lia | exists (a - 1); lia
            | exists (b + 1); lia | exists (b - 1); lia ].
  - split; [exists 18|exists 0]; reflexivity.
  - apply session_writes.
Qed.

(** X4.  In every state of a session the [geometries] dictionary is empty
    or holds the one key ['mesh'].  With a mesh stored, the list
    [as_list] gives the viewer is that mesh alone, [normal_vertex_colors]
    are the colours computed from that mesh's normals, and the keypoints
    are loaded; with none stored, neither colours nor keypoints are. *)
Theorem session_mesh_invariant :
  forall vis keys v n d o,
    let s := play vis keys (session_start v n d o) in
    match geometries s !! "mesh" with
    | Some mesh =>
        geometries s = {[ "mesh" := mesh ]}
        /\ geometry_list s = [mesh]
        /\ normal_vertex_colors s = Some (map normal_color (vertex_normals mesh))
        /\ is_Some (kpoints_3d s)
    | None =>
        geometries s = ∅ /\ geometry_list s = []
        /\ normal_vertex_colors s = None /\ kpoints_3d s = None
    end.
Proof.
  intros vis keys v n d o s.
  assert (Hl : forall s : State,
             match geometries s !! "mesh" with
             | Some mesh =>
                 geometries s = {[ "mesh" := mesh ]}
                 /\ normal_vertex_colors s = Some (map normal_color (vertex_normals mesh))
                 /\ is_Some (kpoints_3d s)
             | None =>
                 geometries s = ∅ /\ normal_vertex_colors s = None /\ kpoints_3d s = None
             end ->
             match geometries s !! "mesh" with
             | Some mesh =>
                 geometries s = {[ "mesh" := mesh ]}
                 /\ geometry_list s = [mesh]
                 /\ normal_vertex_colors s = Some (map normal_color (vertex_normals mesh))
                 /\ is_Some (kpoints_3d s)
             | None =>
                 geometries s = ∅ /\ geometry_list s = []
                 /\ normal_vertex_colors s = None /\ kpoints_3d s = None
             end).
  { intros s0. unfold geometry_list. destruct (geometries s0 !! "mesh") as [mesh|].
    - intros (Hg & Hc & Hk). rewrite Hg, map_to_list_singleton. now repeat split.
    - intros (Hg & Hc & Hk). rewrite Hg, map_to_list_empty. now repeat split. }
  apply Hl.
  apply (writes_invariant
           (fun s =>
              match geometries s !! "mesh" with
              | Some mesh =>
                  geometries s = {[ "mesh" := mesh ]}
                  /\ normal_vertex_colors s = Some (map normal_color (vertex_normals mesh))
                  /\ is_Some (kpoints_3d s)
              | None =>
                  geometries s = ∅ /\ normal_vertex_colors s = None /\ kpoints_3d s = None
              end))
    with (s := init_state n d o).
  - intros s1 s2 HP Hw.
    destruct Hw as [| | | | | | kps mesh | colors mesh Hc Hm |]; try exact HP.
    + cbn [geometries normal_vertex_colors kpoints_3d set_geometries
        set_normal_vertex_colors set_kpoints_3d].
      rewrite lookup_insert_eq. split; [|split; [reflexivity|eauto]].
      destruct (geometries s1 !! "mesh") as [m0|].
      * destruct HP as (-> & _). apply insert_singleton_eq.
      * destruct HP as (-> & _). apply insert_empty.
    + unfold recolour.
      cbn [geometries normal_vertex_colors kpoints_3d set_geometries].
      rewrite lookup_insert_eq. rewrite Hm in HP. destruct HP as (Hg & Hn & Hk).
      split; [rewrite Hg; apply insert_singleton_eq|]. split; [exact Hn|exact Hk].
  - cbn. rewrite lookup_empty. repeat split.
  - apply session_writes.
Qed.

(** ** Start-up *)

Lemma on_key_keeps_frame key (s : State) :
  dump_image (store (on_key key s)) = dump_image s.
Proof.
  destruct (key_cases key)
    as [->|[->|[->|[->|[->|[->|[->|[->|[->|[->|[->|H]]]]]]]]]]];
    try reflexivity.
  - rewrite on_key_dump_frame. destruct (F.trunc _); [|reflexivity].
    destruct (dump_image s) eqn:E; cbn [store]; [exact E|exact E].
  - rewrite on_key_next_example. destruct (_ <? _); [reflexivity|].
    now destruct (dataset s !! _).
  - rewrite on_key_next_model. cbv zeta. now destruct (load_yaml_file _ !! _).
  - now rewrite on_key_unknown.
Qed.

Lemma on_key_keeps_texture key (s : State) :
  key <> next_example -> texture_src (store (on_key key s)) = texture_src s.
Proof.
  intros Hne.
  destruct (key_cases key)
    as [->|[->|[->|[->|[->|[->|[->|[->|[->|[->|[->|H]]]]]]]]]]];
    try reflexivity; try congruence.
  - rewrite on_key_dump_frame. destruct (F.trunc _); [|reflexivity].
    now destruct (dump_image s).
  - rewrite on_key_next_model. cbv zeta. now destruct (load_yaml_file _ !! _).
  - now rewrite on_key_unknown.
Qed.

(** Without a texture example there is no frame. *)
Lemma frame_image_needs_texture (s : State) cam mesh :
  texture_src s = None ->
  frame_image s cam mesh = inl (ValueError "Released model was trained in LAB space.")
  \/ frame_image s cam mesh = inl (KeyError "kpoints_3d")
  \/ frame_image s cam mesh = inl (KeyError "texture_src").
Proof.
  intros Ht. unfold frame_image. destruct LAB; cbn [negb]; [|now left].
  destruct (kpoints_3d s); [|now right; left].
  destruct (get_planes _ _ _). rewrite Ht. now right; right.
Qed.

(** A frame half that cannot or may not render leaves the stored frame
    alone. *)
Lemma framed_without_texture vis (s : State) :
  texture_src s = None ->
  dump_image (store (framed vis s)) = dump_image s
  /\ (can_render vis = true -> exists e, outcome (framed vis s) = inl e).
Proof.
  intros Ht. unfold framed.
  destruct (normal_vertex_colors s) as [colors|]; [|split; eauto].
  destruct (geometries s !! "mesh") as [mesh|]; [|split; eauto].
  cbv zeta. destruct (can_render vis); [|split; [reflexivity|discriminate]].
  destruct (frame_image_needs_texture (recolour colors mesh s)
              (camera (recolour colors mesh s)) (set_vertex_colors colors mesh) Ht)
    as [-> |[-> | ->]]; split; eauto.
Qed.

Lemma framed_no_render vis (s : State) :
  can_render vis = false -> dump_image (store (framed vis s)) = dump_image s.
Proof.
  intros Hr. unfold framed.
  destruct (normal_vertex_colors s); [|reflexivity].
  destruct (geometries s !! "mesh"); [|reflexivity].
  cbv zeta. now rewrite Hr.
Qed.

(** The first start-up callback, [Callbacks(ord('N'))]: no frame is
    stored, and on a visualizer that can render it raises. *)
Lemma first_callback v n d o :
  let r := Callbacks_call next_model v (init_state n d o) in
  dump_image (store r) = None
  /\ (can_render v = true -> exists e, outcome r = inl e).
Proof.
  intros r. unfold r. rewrite call_eq.
  pose proof (on_key_keeps_frame next_model (init_state n d o)) as Hd.
  pose proof (on_key_keeps_texture next_model (init_state n d o)) as Ht.
  destruct (on_key next_model (init_state n d o)) as [[e|[]] s1 t1]; cbn [store] in *.
  - split; [exact Hd|eauto].
  - destruct (framed_without_texture v s1) as [Hf Hr];
      [apply Ht; vm_compute; discriminate|].
    destruct (framed v s1) as [o2 s2 t2]. cbn [store outcome] in *.
    split; [rewrite Hf, Hd; reflexivity|exact Hr].
Qed.

(** X5.  [run] can only get through its start-up callbacks on a
    visualizer for which the guard of the frame half fires: if the
    visualizer has a render option and a view control, the first callback
    already raises (there is no texture example yet), and [run] with it. *)
Theorem startup_needs_the_guard :
  forall v n d o,
    can_render v = true ->
    exists e, outcome (run v n d o) = inl e
              /\ outcome (run_init v (init_state n d o)) = inl e
              /\ outcome (Callbacks_call next_model v (init_state n d o)) = inl e.
Proof.
  intros v n d o Hr.
  destruct (first_callback v n d o) as [_ H]. destruct (H Hr) as [e He].
  exists e. unfold run, run_init, mbind, Py_bind, bind.
  change (ord "N"%char) with next_model.
  destruct (Callbacks_call next_model v (init_state n d o)) as [[e'|[]] s1 t1];
    cbn [outcome] in *; [|discriminate].
  injection He as ->. repeat split.
Qed.

Lemma call_keeps_no_frame key vis (s : State) :
  can_render vis = false ->
  dump_image (store (Callbacks_call key vis s)) = dump_image s.
Proof.
  intros Hr. rewrite call_eq. pose proof (on_key_keeps_frame key s) as Hk.
  destruct (on_key key s) as [[e|[]] s1 t1]; cbn [store] in *; [exact Hk|].
  pose proof (framed_no_render vis s1 Hr) as Hf.
  destruct (framed vis s1). cbn [store] in *. congruence.
Qed.

Lemma session_start_no_frame v n d o : dump_image (session_start v n d o) = None.
Proof.
  unfold session_start, run_init, mbind, Py_bind, bind.
  change (ord "N"%char) with next_model. change (ord " "%char) with next_example.
  destruct (first_callback v n d o) as [Hd Hr].
  destruct (Callbacks_call next_model v (init_state n d o)) as [[e|[]] s1 t1] eqn:H1;
    cbn [store outcome] in *; [exact Hd|].
  assert (Hv : can_render v = false).
  { destruct (can_render v); [|reflexivity]. destruct (Hr eq_refl). discriminate. }
  pose proof (call_keeps_no_frame next_example v s1 Hv) as H2.
  destruct (Callbacks_call next_example v s1) as [[e|[]] s2 t2];
    cbn [store] in *; [congruence|].
  pose proof (call_keeps_no_frame 0 v s2 Hv) as H3.
  destruct (Callbacks_call 0 v s2) as [o3 s3 t3]. cbn [store] in *. congruence.
Qed.

(** X6.  [run] never leaves a frame behind: when the first key of a
    session is [dump_frame], the tick creates the dump directory and then
    raises [KeyError] on ['dump_image']; it writes no file and leaves the
    state, dump counter included, as it was. *)
Theorem dump_before_first_frame :
  forall vis v n d o,
    dump_image (session_start v n d o) = None
    /\ Callbacks_call dump_frame vis (session_start v n d o)
       = mkRun (inl (KeyError "dump_image")) (session_start v n d o) [Mkdir dump_dir].
Proof.
  intros vis v n d o. split; [apply session_start_no_frame|].
  apply call_raises. rewrite on_key_dump_frame, session_start_no_frame.
  destruct (viewpoint_inv _ _ _ _ (session_start_viewpoint v n d o)) as (_ & _ & ->).
  reflexivity.
Qed.

Lemma framed_guarded vis (s : State) colors mesh :
  can_render vis = false ->
  normal_vertex_colors s = Some colors ->
  geometries s !! "mesh" = Some mesh ->
  framed vis s
  = mkRun (inr tt) (recolour colors mesh s)
      (view_print (recolour colors mesh s) ++ [UpdateGeometry])%list.
Proof. intros Hr Hc Hm. unfold framed. now rewrite Hc, Hm, Hr. Qed.

(** X7.  Start-up on a visualizer without a window, with the metadata of
    CAD model 1 at hand: [run] loads model 1, not model 0 (the index is
    moved before the model is read), selects dataset record 0 and leaves
    the dataset index at 1, stores no frame, refreshes the geometry three
    times and hands the viewer the one mesh, coloured by its normals, and
    the key table.  With an empty dataset the second start-up callback
    raises [IndexError] and [run] with it. *)
Theorem startup_state :
  forall v n d o kps,
    can_render v = false ->
    load_yaml_file (path_join CAD_root (model_stem arg_pascal_class 1 ++ ".yaml"))
      !! "kpoints_3d" = Some kps ->
    let mesh0 :=
      compute_vertex_normals
        (read_triangle_mesh (path_join CAD_root (model_stem arg_pascal_class 1 ++ ".ply"))) in
    let colours := map normal_color (vertex_normals mesh0) in
    let mesh1 := set_vertex_colors colours mesh0 in
    let loaded tex i :=
      {| pascal_class := arg_pascal_class; angle_y := 90; angle_z := 0; cad_idx := 1;
         dataset_index := i; dump_id := 0; focal := 1000;
         geometries := {[ "mesh" := mesh1 ]}; radius := 7; net := n; dataset := d;
         vis_oracle := o; texture_src := tex; kpoints_3d := Some kps;
         normal_vertex_colors := Some colours; dump_image := None |} in
    let quiet := (view_print (init_state n d o) ++ [UpdateGeometry])%list in
    match d with
    | ex :: _ =>
        run v n d o
        = mkRun (inr ([mesh1], key_callbacks)) (loaded (Some ex) 1)
            (quiet ++ quiet ++ quiet)%list
    | [] => run v n d o = mkRun (inl IndexError) (loaded None 0) quiet
    end.
Proof.
  intros v n d o kps Hr Hy mesh0 colours mesh1 loaded quiet.
  assert (H1 : Callbacks_call next_model v (init_state n d o)
               = mkRun (inr tt) (loaded None 0) quiet).
  { rewrite call_quiet
      with (s1 := set_geometries (<["mesh" := mesh0]> ∅)
                    (set_normal_vertex_colors (Some colours)
                       (set_kpoints_3d (Some kps) (set_cad_idx 1 (init_state n d o))))).
    - rewrite framed_guarded with (colors := colours) (mesh := mesh0);
        [|exact Hr|reflexivity|apply lookup_insert_eq].
      unfold recolour, loaded, quiet, set_geometries. cbn.
      now rewrite insert_insert_eq, insert_empty.
    - rewrite on_key_next_model. cbv zeta.
      change (next_cad (cad_idx (init_state n d o))) with 1.
      change (pascal_class (init_state n d o)) with arg_pascal_class.
      now rewrite Hy. }
  assert (Hm : geometries (loaded None 0) !! "mesh" = Some mesh1)
    by apply lookup_singleton_eq.
  unfold run, run_init, mbind, Py_bind, bind.
  change (ord "N"%char) with next_model. change (ord " "%char) with next_example.
  rewrite H1. cbv beta iota.
  destruct d as [|ex rest].
  - rewrite (call_raises next_example v (loaded None 0) IndexError (loaded None 0) []).
    + cbv beta iota. now rewrite app_nil_r.
    + now rewrite on_key_next_example.
  - assert (H2 : Callbacks_call next_example v (loaded None 0)
                 = mkRun (inr tt) (loaded (Some ex) 1) quiet).
    { rewrite call_quiet
        with (s1 := set_dataset_index 1 (set_texture_src (Some ex) (loaded None 0))).
      - rewrite framed_guarded with (colors := colours) (mesh := mesh1);
          [|exact Hr|reflexivity|exact Hm].
        unfold recolour, loaded, quiet, set_geometries. cbn.
        now rewrite insert_singleton_eq.
      - now rewrite on_key_next_example. }
    assert (H3 : Callbacks_call 0 v (loaded (Some ex) 1)
                 = mkRun (inr tt) (loaded (Some ex) 1) quiet).
    { rewrite call_quiet with (s1 := loaded (Some ex) 1) by reflexivity.
      rewrite framed_guarded with (colors := colours) (mesh := mesh1);
        [|exact Hr|reflexivity|exact Hm].
      unfold recolour, loaded, quiet, set_geometries. cbn.
      now rewrite insert_singleton_eq. }
    rewrite H2. cbv beta iota. rewrite H3. cbv beta iota.
    unfold get, ret. cbv beta iota.
    f_equal. now rewrite !app_nil_r.
Qed.

(** X8.  When the metadata file of the next model has no ['kpoints_3d'],
    [next_model] raises [KeyError] after the CAD index has moved and
    before anything is loaded: the state is left with the new index and
    the keypoints, mesh and colours of the old model, and no frame is
    composed. *)
Theorem next_model_fails_after_moving_the_index :
  forall vis (s : State),
    load_yaml_file
      (path_join CAD_root (model_stem (pascal_class s) (next_cad (cad_idx s)) ++ ".yaml"))
      !! "kpoints_3d" = None ->
    Callbacks_call next_model vis s
    = mkRun (inl (KeyError "kpoints_3d")) (set_cad_idx (next_cad (cad_idx s)) s) [].
Proof.
  intros vis s Hy. apply call_raises. rewrite on_key_next_model. cbv zeta.
  now rewrite Hy.
Qed.

(** ** The viewpoint over a whole sequence of keys *)

Lemma presses_nil k : presses k [] = 0.
Proof. reflexivity. Qed.

Lemma presses_cons k key keys :
  presses k (key :: keys) = (if decide (key = k) then 1 else 0) + presses k keys.
Proof.
  unfold presses. rewrite filter_cons. destruct (decide (key = k)); cbn [length]; lia.
Qed.

Lemma not_recognized_ne key k : ~ In key recognized -> In k recognized -> key <> k.
Proof. intros Hn Hk ->. contradiction. Qed.

(** Decide equalities between key codes. *)
Ltac key_decide :=
  repeat match goal with
         | |- context [decide (?a = ?b)] =>
             let E := fresh "E" in
             destruct (decide (a = b)) as [E|E];
             [try (exfalso; vm_compute in E; discriminate E)
             |try (exfalso; apply E; reflexivity)]
         end.

Lemma tick_angles key vis (s : State) :
  angle_y (tick vis s key)
  = angle_y s + 5 * ((if decide (key = rotate_up) then 1 else 0)
                     - (if decide (key = rotate_down) then 1 else 0))
  /\ angle_z (tick vis s key)
     = angle_z s + 5 * ((if decide (key = rotate_right) then 1 else 0)
                        - (if decide (key = rotate_left) then 1 else 0)).
Proof.
  unfold tick.
  rewrite (call_reads angle_y) by now intros ? ? ?.
  rewrite (call_reads angle_z) by now intros ? ? ?.
  destruct (key_cases key)
    as [->|[->|[->|[->|[->|[->|[->|[->|[->|[->|[->|H]]]]]]]]]]].
  - rewrite on_key_no_op. key_decide. split; cbn; lia.
  - rewrite on_key_dump_frame. key_decide.
    destruct (F.trunc _); [|split; cbn; lia].
    destruct (dump_image s); split; cbn; lia.
  - rewrite on_key_reset_view. key_decide. split; cbn; lia.
  - rewrite on_key_rotate_up. key_decide. split; cbn; lia.
  - rewrite on_key_rotate_down. key_decide. split; cbn; lia.
  - rewrite on_key_rotate_right. key_decide. split; cbn; lia.
  - rewrite on_key_rotate_left. key_decide. split; cbn; lia.
  - rewrite on_key_zoom_in. key_decide. split; cbn; lia.
  - rewrite on_key_zoom_out. key_decide. split; cbn; lia.
  - rewrite on_key_next_example. key_decide.
    destruct (_ <? _); [split; cbn; lia|].
    destruct (dataset s !! _); split; cbn; lia.
  - rewrite on_key_next_model. cbv zeta. key_decide.
    destruct (load_yaml_file _ !! _); split; cbn; lia.
  - rewrite on_key_unknown by assumption. cbn [store].
    assert (Hin : forall k, In k recognized -> key <> k)
      by (intros k Hk; now apply not_recognized_ne).
    destruct (decide (key = rotate_up)) as [E|_];
      [exfalso; apply (Hin rotate_up); [unfold recognized; cbn; tauto|exact E]|].
    destruct (decide (key = rotate_down)) as [E|_];
      [exfalso; apply (Hin rotate_down); [unfold recognized; cbn; tauto|exact E]|].
    destruct (decide (key = rotate_right)) as [E|_];
      [exfalso; apply (Hin rotate_right); [unfold recognized; cbn; tauto|exact E]|].
    destruct (decide (key = rotate_left)) as [E|_];
      [exfalso; apply (Hin rotate_left); [unfold recognized; cbn; tauto|exact E]|].
    split; lia.
Qed.

(** X9.  After any sequence of keys the pitch is the pitch before plus 5
    for every [rotate_up] and minus 5 for every [rotate_down] in it, and
    the yaw likewise for [rotate_right] and [rotate_left]: the order of
    the keys does not matter, opposite keys cancel, and no other key and
    no tick that raises moves an angle. *)
Theorem angles_count_the_keys :
  forall vis keys (s : State),
    angle_y (play vis keys s)
    = angle_y s + 5 * (presses rotate_up keys - presses rotate_down keys)
    /\ angle_z (play vis keys s)
       = angle_z s + 5 * (presses rotate_right keys - presses rotate_left keys).
Proof.
  intros vis keys. induction keys as [|key keys IH]; intros s.
  - rewrite !presses_nil. cbn. split; lia.
  - rewrite play_cons. destruct (IH (tick vis s key)) as [-> ->].
    destruct (tick_angles key vis s) as [-> ->].
    rewrite !presses_cons.
    destruct (decide (key = rotate_up)), (decide (key = rotate_down)),
      (decide (key = rotate_right)), (decide (key = rotate_left)); split; lia.
Qed.

(** X10.  The camera of a frame has its azimuth in [0, 360) and its
    elevation in [0, 180].  The pitch is stored unclamped, so beyond 90
    degrees a further [rotate_up] moves the state but not the camera; and
    72 [rotate_right] ticks, a full turn, add 360 to the stored yaw and
    give the same camera. *)
Theorem camera_ranges_and_saturation :
  forall vis (s : State),
    0 <= pascal_az (camera s) < 360
    /\ 0 <= pascal_el (camera s) <= 180
    /\ (90 <= angle_y s ->
        angle_y (tick vis s rotate_up) = angle_y s + 5
        /\ camera (tick vis s rotate_up) = camera s)
    /\ angle_z (play vis (replicate 72 rotate_right) s) = angle_z s + 360
    /\ camera (play vis (replicate 72 rotate_right) s) = camera s.
Proof.
  intros vis s.
  split; [apply Z.mod_pos_bound; lia|].
  split; [unfold camera, clipZ; cbn [pascal_el]; lia|].
  split.
  - intros Hy.
    assert (Hv : viewpoint (tick vis s rotate_up)
                 = (angle_y s + 5, angle_z s, radius s)).
    { unfold tick. rewrite (call_reads viewpoint) by apply viewpoint_blind.
      now rewrite on_key_rotate_up. }
    destruct (viewpoint_inv _ _ _ _ Hv) as (Hy' & Hz' & Hr').
    split; [exact Hy'|]. unfold camera. rewrite Hy', Hz', Hr'.
    unfold clipZ. f_equal; lia.
  - destruct (viewpoint_inv _ _ _ _ (play_rotate_right vis 72 s)) as (Hy & Hz & Hr).
    split; [rewrite Hz; lia|]. unfold camera. rewrite Hy, Hz, Hr.
    f_equal.
    replace (angle_z s + 5 * Z.of_nat 72 + 90) with (angle_z s + 90 + 1 * 360) by lia.
    apply Z.mod_add. lia.
Qed.

(** X11.  The elevation [dump_frame] puts in the file name is computed
    from the unclamped pitch: it is the elevation of the camera exactly
    when the pitch is within [-90, 90].  Outside that range the file is
    named after an elevation the frame was not rendered at. *)
Theorem dump_name_uses_unclamped_pitch :
  forall vis (s : State) img rad,
    dump_image s = Some img ->
    F.trunc (radius s) = Some rad ->
    dumped
      (path_join dump_dir
         (dump_name (dump_id s) (90 - angle_y s) (pascal_az (camera s)) rad ++ ".png"))
      img (trace (Callbacks_call dump_frame vis s))
    /\ (90 - angle_y s = pascal_el (camera s) <-> -90 <= angle_y s <= 90).
Proof.
  intros vis s img rad Hi Hr. split.
  - now destruct (dump_frame_tick vis s img rad Hi Hr) as (_ & _ & _ & Ht).
  - unfold camera, clipZ. cbn [pascal_el]. lia.
Qed.

(** ** Files and frames *)

Lemma on_key_trace key (s : State) :
  key <> dump_frame -> trace (on_key key s) = [].
Proof.
  intros Hne.
  destruct (key_cases key)
    as [->|[->|[->|[->|[->|[->|[->|[->|[->|[->|[->|H]]]]]]]]]]];
    try reflexivity; try congruence.
  - rewrite on_key_next_example. destruct (_ <? _); [reflexivity|].
    now destruct (dataset s !! _).
  - rewrite on_key_next_model. cbv zeta. now destruct (load_yaml_file _ !! _).
  - now rewrite on_key_unknown.
Qed.

Lemma view_print_plain (s : State) e :
  In e (view_print s) -> ~ touches_files e /\ ~ shows_frame e.
Proof.
  unfold view_print. destruct verbose; cbn [In]; [|tauto].
  intros [<-|[]]. cbn. tauto.
Qed.

Lemma framed_trace vis (s : State) e :
  In e (trace (framed vis s)) ->
  ~ touches_files e
  /\ (shows_frame e ->
      can_render vis = true /\ outcome (framed vis s) = inr tt
      /\ exists out, e = Imshow "Output" out /\ dump_image (store (framed vis s)) = Some out).
Proof.
  unfold framed.
  destruct (normal_vertex_colors s) as [colors|]; [|intros []].
  destruct (geometries s !! "mesh") as [mesh|]; [|intros []].
  cbv zeta. destruct (can_render vis).
  - destruct (frame_image _ _ _) as [err|out]; cbn [trace store outcome].
    + rewrite in_app_iff. intros [He|He].
      * destruct (view_print_plain _ _ He). tauto.
      * cbn [aligned In] in He. destruct He as [<-|[]]. cbn. tauto.
    + rewrite !in_app_iff. intros [He|[He|He]].
      * destruct (view_print_plain _ _ He). tauto.
      * cbn [aligned In] in He. destruct He as [<-|[]]. cbn. tauto.
      * unfold shown in He. cbn [In] in He.
        destruct He as [<-|[<-|[<-|[]]]]; cbn; split; try tauto.
        intros _. repeat split. eauto.
  - cbn [trace]. rewrite in_app_iff. intros [He|He].
    + destruct (view_print_plain _ _ He). tauto.
    + cbn [In] in He. destruct He as [<-|[]]. cbn. tauto.
Qed.

Lemma call_trace key vis (s : State) e :
  In e (trace (Callbacks_call key vis s)) ->
  In e (trace (on_key key s))
  \/ exists s1 t1, on_key key s = mkRun (inr tt) s1 t1
                   /\ In e (trace (framed vis s1))
                   /\ store (Callbacks_call key vis s) = store (framed vis s1)
                   /\ outcome (Callbacks_call key vis s) = outcome (framed vis s1).
Proof.
  rewrite call_eq. destruct (on_key key s) as [[err|[]] s1 t1]; cbn [trace]; [tauto|].
  destruct (framed vis s1) as [o2 s2 t2] eqn:Hf. cbn [trace store outcome].
  rewrite in_app_iff. intros [He|He]; [tauto|].
  right. exists s1, t1. rewrite Hf. cbn. tauto.
Qed.

(** X12.  Only [dump_frame] touches the file system: a tick of any other
    key, known or unknown, creates no directory, writes no image and
    prints no "Saved" line. *)
Theorem only_dump_frame_writes_files :
  forall key vis (s : State) e,
    key <> dump_frame ->
    In e (trace (Callbacks_call key vis s)) ->
    ~ touches_files e.
Proof.
  intros key vis s e Hne He.
  destruct (call_trace key vis s e He) as [Hk|(s1 & t1 & _ & Hf & _)].
  - rewrite on_key_trace in Hk by assumption. destruct Hk.
  - now destruct (framed_trace vis s1 e Hf).
Qed.

Lemma on_key_shows_nothing key (s : State) e :
  In e (trace (on_key key s)) -> ~ shows_frame e.
Proof.
  destruct (decide (key = dump_frame)) as [->|Hne];
    [|rewrite on_key_trace by assumption; intros []].
  rewrite on_key_dump_frame. destruct (F.trunc _).
  - destruct (dump_image s); cbn [trace In];
      intros H; repeat destruct H as [<-|H]; cbn; tauto.
  - cbn [trace In]. intros [<-|[]]. cbn. tauto.
Qed.

(** X13.  A tick shows a frame only if it returns, on a visualizer that
    can render, and the frame it shows is the one it stores in
    [dump_image].  A tick that raises shows nothing and leaves the stored
    frame as it was, so the last good frame stays available to
    [dump_frame]. *)
Theorem frames_shown_and_kept :
  forall key vis (s : State),
    let r := Callbacks_call key vis s in
    (forall e,
       In e (trace r) -> shows_frame e ->
       can_render vis = true /\ outcome r = inr tt
       /\ exists out, e = Imshow "Output" out /\ dump_image (store r) = Some out)
    /\ (forall err, outcome r = inl err -> dump_image (store r) = dump_image s).
Proof.
  intros key vis s r. split.
  - intros e He Hs. unfold r in *.
    destruct (call_trace key vis s e He) as [Hk|(s1 & t1 & _ & Hf & Hst & Hout)].
    + now destruct (on_key_shows_nothing key s e Hk).
    + rewrite Hst, Hout. destruct (framed_trace vis s1 e Hf) as [_ H]. now apply H.
  - intros err. unfold r. rewrite call_eq.
    pose proof (on_key_keeps_frame key s) as Hk.
    destruct (on_key key s) as [[e1|[]] s1 t1]; cbn [store outcome] in *;
      [intros _; exact Hk|].
    rewrite <- Hk. unfold framed.
    destruct (normal_vertex_colors s1); [|reflexivity].
    destruct (geometries s1 !! "mesh"); [|reflexivity].
    cbv zeta. destruct (can_render vis); [|discriminate].
    destruct (frame_image _ _ _); [reflexivity|discriminate].
Qed.

(** ** The keys [run] registers *)

(** X14.  Every callback [run] registers carries the key it is registered
    under, and no key is registered twice.  The registered keys are the
    viewpoint and selection keys and [dump_frame], and two more, ['O'] and
    ['P'], which the dispatch chain does not know: pressing either raises
    [NotImplementedError] in every state.  The keys [0] and ['R'], which
    the chain handles, are not registered. *)
Theorem registered_keys :
  (forall k c, In (k, c) key_callbacks -> c = k)
  /\ NoDup (map fst key_callbacks)
  /\ (forall k, In k (map fst key_callbacks) <->
                (In k recognized /\ k <> no_op /\ k <> reset_view)
                \/ k = ord "O"%char \/ k = ord "P"%char)
  /\ (forall k vis (s : State),
        k = ord "O"%char \/ k = ord "P"%char ->
        Callbacks_call k vis s = mkRun (inl NotImplementedError) s []).
Proof.
  split.
  { intros k c H. unfold key_callbacks in H. cbn [In] in H.
    repeat destruct H as [[= <- <-]|H]; try reflexivity. destruct H. }
  split.
  { apply (bool_decide_unpack _). vm_compute. exact I. }
  split.
  { intros k. unfold key_callbacks, recognized. cbn [map fst In]. split.
    - intros H. repeat destruct H as [<-|H]; try (destruct H);
        try (right; tauto);
        left; (split; [tauto|split; intros E; vm_compute in E; discriminate E]).
    - intros [(H & H0 & HR)|[->| ->]]; [|tauto|tauto].
      repeat destruct H as [<-|H]; try tauto; try (destruct H); congruence. }
  intros k vis s Hk. apply call_raises. apply on_key_unknown.
  unfold recognized. cbn [In]. intros H.
  destruct Hk as [-> | ->]; repeat destruct H as [H|H];
    try (vm_compute in H; discriminate H); exact H.
Qed.

End SessionMore.

(** ** [Geometries.as_list] *)

Lemma as_list_acc {G} (values : list (G + list G)) (acc : list G) :
  fold_left (fun l v => match v with
                        | inr gs => (l ++ gs)%list
                        | inl g => (l ++ [g])%list
                        end) values acc
  = (acc ++ as_list values)%list.
Proof.
  unfold as_list. revert acc. induction values as [|v values IH]; intros acc.
  - cbn. now rewrite app_nil_r.
  - cbn [fold_left]. destruct v as [g|gs].
    + rewrite (IH (acc ++ [g])%list), (IH ([] ++ [g])%list).
      cbn [app]. now rewrite <- app_assoc.
    + rewrite (IH (acc ++ gs)%list), (IH ([] ++ gs)%list).
      cbn [app]. now rewrite <- app_assoc.
Qed.

(** X15.  [as_list] flattens the values of the dictionary in their order:
    the list of a concatenation is the concatenation of the lists, a
    geometry is in the result exactly if it is a value of the dictionary
    or an element of a value that is a sequence, and the length of the
    result is the number of single values plus the lengths of the
    sequences.  Nothing is dropped, repeated or reordered. *)
Theorem as_list_flattens :
  forall G (values : list (G + list G)),
    as_list values
    = concat (map (fun v => match v with inl g => [g] | inr gs => gs end) values)
    /\ (forall more, as_list (values ++ more) = (as_list values ++ as_list more)%list)
    /\ (forall x, In x (as_list values) <->
                  exists v, In v values
                            /\ (v = inl x \/ exists gs, v = inr gs /\ In x gs))
    /\ length (as_list values)
       = list_sum (map (fun v => match v with inl _ => 1%nat | inr gs => length gs end)
                     values).
Proof.
  intros G values.
  assert (Hc : forall vs : list (G + list G),
             as_list vs
             = concat (map (fun v => match v with inl g => [g] | inr gs => gs end) vs)).
  { induction vs as [|v vs IH]; [reflexivity|].
    unfold as_list. cbn [fold_left map concat]. rewrite as_list_acc, IH.
    now destruct v. }
  split; [apply Hc|]. split; [|split].
  - intros more. now rewrite !Hc, map_app, concat_app.
  - intros x. rewrite Hc, in_concat. split.
    + intros (l & Hl & Hx). apply in_map_iff in Hl. destruct Hl as (v & <- & Hv).
      exists v. split; [exact Hv|]. destruct v as [g|gs].
      * destruct Hx as [->|[]]. now left.
      * right. eauto.
    + intros (v & Hv & [->|(gs & -> & Hx)]).
      * exists [x]. split; [|now left]. apply in_map_iff. now exists (inl x).
      * exists gs. split; [|exact Hx]. apply in_map_iff. now exists (inr gs).
  - rewrite Hc. induction values as [|v values IH]; [reflexivity|].
    cbn [map concat list_sum]. rewrite length_app, IH. now destruct v.
Qed.

(** ** The entry point *)

(** X16.  Whatever the command line says, the entry point starts [run]
    with [LAB] and [demo] switched on (the [--demo] flag changes nothing),
    and only after the model path was found to be a file, the CAD root a
    directory, and [help.txt] could be read; a bad model path is reported
    before a bad CAD root.  Started this way, the frame half never raises
    its "Released model was trained in LAB space." [ValueError]. *)
Theorem main_forces_LAB_and_demo :
  (forall p is_file is_dir help text cfg,
     main p is_file is_dir help = inr (text, cfg) ->
     @LAB (cfg_args cfg) = true /\ cfg_demo cfg = true
     /\ is_file (p_model_path p) = true /\ is_dir (p_CAD_root p) = true
     /\ help = Some text
     /\ forall (C : Collab) (s : State) cam mesh,
          frame_image (args := cfg_args cfg) s cam mesh
          <> inl (ValueError "Released model was trained in LAB space."))
  /\ (forall p is_file is_dir help b,
        main {| p_pascal_class := p_pascal_class p;
                p_texture_dataset_dir := p_texture_dataset_dir p;
                p_model_path := p_model_path p; p_CAD_root := p_CAD_root p;
                p_dump_dir := p_dump_dir p; p_device := p_device p;
                p_demo := b; p_verbose := p_verbose p |} is_file is_dir help
        = main p is_file is_dir help)
  /\ (forall p is_file is_dir help,
        is_file (p_model_path p) = false ->
        main p is_file is_dir help
        = inl (OSError "Please provide a valid file for pretrained weights.")).
Proof.
  split; [|split].
  - intros p is_file is_dir help text cfg. unfold main.
    destruct (is_file _) eqn:Hf; [|discriminate].
    destruct (is_dir _) eqn:Hd; [|discriminate].
    destruct help as [t|]; [|discriminate].
    cbn [negb]. intros [= <- <-]. repeat split.
    intros C s cam mesh. unfold frame_image. cbn [LAB negb cfg_args].
    destruct (kpoints_3d s); [|discriminate].
    destruct (get_planes _ _ _).
    destruct (texture_src s); [|discriminate].
    destruct (warp_unwarp_planes _ _ _ _ _ _).
    unfold composite. destruct (mask_assign _ _ _) as [e|masked] eqn:Hm.
    + unfold mask_assign in Hm. destruct (same_shape _ _); [discriminate|].
      injection Hm as <-. discriminate.
    + unfold concatenate_axis1. destruct (forallb _ _); discriminate.
  - reflexivity.
  - intros p is_file is_dir help Hf. unfold main. now rewrite Hf.
Qed.

(** ** Reading a dump index back from a file name *)

Lemma digit_value_char k : (k < 10)%N -> digit_value (pretty_N_char k) = Some k.
Proof.
  intros H.
  assert (Hk : (k = 0 \/ k = 1 \/ k = 2 \/ k = 3 \/ k = 4 \/ k = 5 \/ k = 6
                \/ k = 7 \/ k = 8 \/ k = 9)%N) by lia.
  repeat destruct Hk as [->|Hk]; try reflexivity. now subst.
Qed.

Lemma read_pretty_go x s : read_digits 0 (pretty_N_go x s) = read_digits x s.
Proof.
  revert s. induction (N.lt_wf_0 x) as [x _ IH]; intros s.
  destruct (N.eq_dec x 0%N) as [->|Hx]; [now rewrite pretty_N_go_0|].
  rewrite pretty_N_go_step by lia.
  rewrite IH by (apply N.div_lt; lia).
  cbn [read_digits]. rewrite digit_value_char by (apply N.mod_lt; lia).
  f_equal. pose proof (N.div_mod x 10). lia.
Qed.

Lemma pretty_go_app x s rest : (pretty_N_go x s ++ rest)%string = pretty_N_go x (s ++ rest).
Proof.
  revert s. induction (N.lt_wf_0 x) as [x _ IH]; intros s.
  destruct (N.eq_dec x 0%N) as [->|Hx]; [now rewrite !pretty_N_go_0|].
  rewrite (pretty_N_go_step x s), (pretty_N_go_step x (s ++ rest)) by lia.
  rewrite IH by (apply N.div_lt; lia). reflexivity.
Qed.

Lemma read_pretty (x : N) rest : read_digits 0 (pretty x ++ rest) = read_digits x rest.
Proof.
  unfold pretty, pretty_N. destruct (decide (x = 0%N)) as [->|Hx]; [reflexivity|].
  now rewrite pretty_go_app, read_pretty_go.
Qed.

Lemma read_zeros k t :
  read_digits 0 (String.concat "" (replicate k "0") ++ t) = read_digits 0 t.
Proof.
  induction k as [|k IH]; [reflexivity|].
  destruct k as [|k]; [reflexivity|].
  change (replicate (S (S k)) "0") with ("0" :: replicate (S k) "0").
  change (String.concat "" ("0" :: replicate (S k) "0"))
    with ("0" ++ "" ++ String.concat "" (replicate (S k) "0"))%string.
  cbn [String.append read_digits]. exact IH.
Qed.

Lemma append_assoc (a b c : string) : ((a ++ b) ++ c = a ++ (b ++ c))%string.
Proof.
  induction a as [|ch a IH]; [reflexivity|].
  change (String ch ((a ++ b) ++ c) = String ch (a ++ (b ++ c)))%string. now f_equal.
Qed.

Lemma append_cancel (a b c : string) : (a ++ b = a ++ c)%string -> b = c.
Proof.
  induction a as [|ch a IH]; [auto|].
  change (String ch (a ++ b) = String ch (a ++ c) -> b = c)%string.
  intros [= H]. auto.
Qed.

Lemma path_join_cancel (dir a b : string) :
  path_join dir a = path_join dir b -> a = b.
Proof.
  unfold path_join. destruct (String.eqb dir "."); [auto|].
  destruct (ends_with_slash dir); intros H.
  - now apply append_cancel in H.
  - apply append_cancel in H. now apply (append_cancel "/") in H.
Qed.

Lemma read_fmt03d n rest :
  0 <= n -> read_digits 0 (fmt03d n ++ String "_" rest) = Z.to_N n.
Proof.
  intros Hn. unfold fmt03d, zfill.
  destruct (Z.ltb_spec n 0); [lia|]. cbv iota.
  now rewrite append_assoc, read_zeros, read_pretty.
Qed.

Lemma dump_paths_differ d d' :
  0 <= d -> 0 <= d' ->
  forall dir dir' el az rad el' az' rad',
    dir = dir' ->
    path_join dir (dump_name d el az rad ++ ".png")
    = path_join dir' (dump_name d' el' az' rad' ++ ".png") ->
    d = d'.
Proof.
  intros Hd Hd' dir dir' el az rad el' az' rad' <- Heq.
  apply path_join_cancel in Heq.
  assert (Hread : forall d el az rad,
             0 <= d -> read_digits 0 (dump_name d el az rad ++ ".png") = Z.to_N d).
  { intros d0 el0 az0 rad0 H0. unfold dump_name.
    rewrite append_assoc. change ("_el_" ++ ?x)%string with (String "_" ("el_" ++ x)).
    cbn [String.append]. now apply read_fmt03d. }
  pose proof (Hread d el az rad Hd) as H1.
  pose proof (Hread d' el' az' rad' Hd') as H2.
  rewrite Heq in H1. rewrite H1 in H2. lia.
Qed.

(** X17.  The dump index can be read back from the name [dump_frame]
    writes under: the leading digits of the name are the index.  So two
    dumps with different indices never go to the same file, whatever the
    viewpoint and the directory -- within a session, where every dump adds
    one to the index, no dump overwrites an earlier one. *)
Theorem dump_index_reads_back :
  forall d el az rad,
    0 <= d ->
    read_digits 0 (dump_name d el az rad) = Z.to_N d
    /\ (forall dir d' el' az' rad',
          0 <= d' ->
          path_join dir (dump_name d el az rad ++ ".png")
          = path_join dir (dump_name d' el' az' rad' ++ ".png") ->
          d = d').
Proof.
  assert (Hread : forall d el az rad ext,
             0 <= d -> read_digits 0 (dump_name d el az rad ++ ext) = Z.to_N d).
  { intros d el az rad ext Hd. unfold dump_name.
    rewrite append_assoc. change ("_el_" ++ ?x)%string with (String "_" ("el_" ++ x)).
    cbn [String.append]. now apply read_fmt03d. }
  intros d el az rad Hd. split.
  - unfold dump_name. change ("_el_" ++ ?x)%string with (String "_" ("el_" ++ x)).
    now apply read_fmt03d.
  - intros dir d' el' az' rad' Hd' Heq. apply path_join_cancel in Heq.
    pose proof (Hread d el az rad ".png" Hd) as H1.
    pose proof (Hread d' el' az' rad' ".png" Hd') as H2.
    rewrite Heq in H1. rewrite H1 in H2. lia.
Qed.

(** ** The files of a whole sequence of ticks *)

Lemma written_app t1 t2 : written (t1 ++ t2) = (written t1 ++ written t2)%list.
Proof.
  induction t1 as [|e t1 IH]; [reflexivity|].
  destruct e; cbn [app written]; now rewrite ?IH.
Qed.

Section Dumps.

Context {C : Collab} {args : Args}.

Lemma framed_written vis (s : State) : written (trace (framed vis s)) = [].
Proof.
  unfold framed.
  destruct (normal_vertex_colors s); [|reflexivity].
  destruct (geometries s !! "mesh"); [|reflexivity].
  cbv zeta. unfold view_print, shown.
  destruct (can_render vis); [destruct (frame_image _ _ _)|];
    destruct verbose; reflexivity.
Qed.

(** What one tick writes: nothing, with the dump counter as it was, or
    one file named after the counter, which then moves up by one. *)
Lemma tick_written key vis (s : State) :
  let r := Callbacks_call key vis s in
  (written (trace r) = [] /\ dump_id (store r) = dump_id s)
  \/ (exists rad, written (trace r) = [dump_path s (dump_id s) rad]
                  /\ dump_id (store r) = dump_id s + 1).
Proof.
  intros r. unfold r.
  rewrite (call_reads dump_id) by now intros ? ? ?.
  rewrite call_eq.
  destruct (decide (key = dump_frame)) as [->|Hne].
  - rewrite on_key_dump_frame. destruct (F.trunc (radius s)) as [rad|]; [|now left].
    destruct (dump_image s) as [img|]; [|now left].
    right. exists rad. cbv zeta. cbn [store].
    pose proof (framed_written vis (set_dump_id (dump_id s + 1) s)) as Hf.
    destruct (framed vis _) as [o2 s2 t2]. cbn [trace] in *.
    rewrite written_app, Hf. split; reflexivity.
  - left. pose proof (on_key_trace key s Hne) as Ht.
    assert (Hd : dump_id (store (on_key key s)) = dump_id s).
    { destruct (key_cases key)
        as [->|[->|[->|[->|[->|[->|[->|[->|[->|[->|[->|H]]]]]]]]]]];
        try reflexivity; try congruence.
      - rewrite on_key_next_example. destruct (_ <? _); [reflexivity|].
        now destruct (dataset s !! _).
      - rewrite on_key_next_model. cbv zeta. now destruct (load_yaml_file _ !! _).
      - now rewrite on_key_unknown. }
    destruct (on_key key s) as [[e|[]] s1 t1]; cbn [trace store] in *.
    + subst t1. split; [reflexivity|exact Hd].
    + pose proof (framed_written vis s1) as Hf.
      destruct (framed vis s1) as [o2 s2 t2]. cbn [trace] in *.
      subst t1. rewrite written_app, Hf. split; [reflexivity|exact Hd].
Qed.

Lemma written_traces_bound vis keys (s : State) p :
  0 <= dump_id s ->
  In p (written (concat (traces vis keys s))) ->
  exists s' d rad, p = dump_path s' d rad /\ dump_id s <= d.
Proof.
  revert s. induction keys as [|key keys IH]; intros s H0; [intros []|].
  cbn [traces concat]. rewrite written_app, in_app_iff.
  destruct (tick_written key vis s) as [[Hw Hd]|(rad & Hw & Hd)]; rewrite Hw.
  - intros [[]|Hp]. destruct (IH _ (eq_ind_r (fun x => 0 <= x) H0 Hd) Hp)
      as (s' & d & rad & -> & Hle).
    exists s', d, rad. split; [reflexivity|]. lia.
  - intros [[<-|[]]|Hp].
    + exists s, (dump_id s), rad. split; [reflexivity|lia].
    + assert (H1 : 0 <= dump_id (store (Callbacks_call key vis s))) by lia.
      destruct (IH _ H1 Hp) as (s' & d & rad' & -> & Hle).
      exists s', d, rad'. split; [reflexivity|]. lia.
Qed.

(** X18.  However many ticks a session runs and whatever the keys, no
    image file is written twice: the paths of all [cv2.imwrite] calls are
    pairwise different, because each carries the dump counter of its tick
    and the counter only moves up. *)
Theorem no_dump_is_overwritten :
  forall vis keys (s : State),
    0 <= dump_id s ->
    NoDup (written (concat (traces vis keys s))).
Proof.
  intros vis keys. induction keys as [|key keys IH]; intros s H0; [constructor|].
  cbn [traces concat]. rewrite written_app.
  destruct (tick_written key vis s) as [[Hw Hd]|(rad & Hw & Hd)]; rewrite Hw.
  - cbn [app]. apply IH. lia.
  - cbn [app]. constructor; [|apply IH; lia].
    rewrite list_elem_of_In. intros Hin.
    apply written_traces_bound in Hin; [|lia].
    destruct Hin as (s' & d & rad' & Hp & Hle). rewrite Hd in Hle.
    unfold dump_path in Hp.
    pose proof (dump_paths_differ (dump_id s) d H0 ltac:(lia) _ _ _ _ _ _ _ _ eq_refl Hp).
    lia.
Qed.

(** X19.  The texture example in use is always the dataset record just
    before the dataset index: none while the index is 0, and record
    [dataset_index - 1] afterwards. *)
Theorem selected_example_trails_the_index :
  forall vis keys v n d o,
    let s := play vis keys (session_start v n d o) in
    if dataset_index s =? 0 then texture_src s = None
    else texture_src s = d !! Z.to_nat (dataset_index s - 1)
         /\ is_Some (texture_src s).
Proof.
  intros vis keys v n d o s.
  assert (H : dataset s = d /\ 0 <= dataset_index s
              /\ if dataset_index s =? 0 then texture_src s = None
                 else texture_src s = dataset s !! Z.to_nat (dataset_index s - 1)
                      /\ is_Some (texture_src s)).
  { apply (writes_invariant
             (fun s => dataset s = d /\ 0 <= dataset_index s
                       /\ if dataset_index s =? 0 then texture_src s = None
                          else texture_src s
                               = dataset s !! Z.to_nat (dataset_index s - 1)
                               /\ is_Some (texture_src s)))
      with (s := init_state n d o).
    - intros s1 s2 HP Hw.
      destruct Hw as [| | | |ex Hi Hex| | | |]; try exact HP.
      destruct HP as (Hd & H0 & _).
      cbn [dataset dataset_index texture_src set_dataset_index set_texture_src].
      split; [exact Hd|]. split; [lia|].
      destruct (Z.eqb_spec (dataset_index s1 + 1) 0); [lia|].
      replace (dataset_index s1 + 1 - 1) with (dataset_index s1) by lia.
      split; [now rewrite Hex|eauto].
    - cbn. repeat split. lia.
    - apply session_writes. }
  destruct H as (Hd & _ & H). now rewrite Hd in H.
Qed.

End Dumps.

(** ** The colour-space check *)

Section ColourSpace.

Context {C : Collab} {args : Args}.

Lemma framed_outside_LAB vis (s : State) :
  LAB = false -> can_render vis = true ->
  (exists e, outcome (framed vis s) = inl e)
  /\ dump_image (store (framed vis s)) = dump_image s
  /\ (is_Some (normal_vertex_colors s) -> is_Some (geometries s !! "mesh") ->
      outcome (framed vis s)
      = inl (ValueError "Released model was trained in LAB space.")).
Proof.
  intros HL Hr. unfold framed.
  destruct (normal_vertex_colors s) as [colors|].
  2:{ split; [eauto|]. split; [reflexivity|]. intros [? H]. discriminate H. }
  destruct (geometries s !! "mesh") as [mesh|].
  2:{ split; [eauto|]. split; [reflexivity|]. intros _ [? H]. discriminate H. }
  cbv zeta. rewrite Hr. unfold frame_image. rewrite HL. cbn [negb outcome store].
  split; [eauto|]. split; reflexivity.
Qed.

(** X20.  With [args.LAB] false, a tick on a visualizer that can render
    never gets a frame out: every tick raises, the stored frame stays what
    it was, nothing is shown, and when the key half went through and a
    mesh with its colours is loaded the exception is the [ValueError] of
    the colour-space check, raised before the keypoints and the texture
    example are looked at. *)
Theorem no_frame_outside_LAB :
  forall key vis (s : State),
    LAB = false ->
    can_render vis = true ->
    let r := Callbacks_call key vis s in
    (exists e, outcome r = inl e)
    /\ dump_image (store r) = dump_image s
    /\ (forall e, In e (trace r) -> ~ shows_frame e)
    /\ (outcome (on_key key s) = inr tt ->
        is_Some (normal_vertex_colors (store (on_key key s))) ->
        is_Some (geometries (store (on_key key s)) !! "mesh") ->
        outcome r = inl (ValueError "Released model was trained in LAB space.")).
Proof.
  intros key vis s HL Hr r.
  assert (Hshow : forall e, In e (trace r) -> ~ shows_frame e).
  { intros e He Hs. destruct (call_trace key vis s e He) as [Hk|(s1 & t1 & _ & Hf & _)].
    - exact (on_key_shows_nothing key s e Hk Hs).
    - destruct (framed_trace vis s1 e Hf) as [_ H].
      destruct (H Hs) as (_ & Ho & _).
      destruct (framed_outside_LAB vis s1 HL Hr) as ((e' & He') & _).
      rewrite He' in Ho. discriminate Ho. }
  unfold r in *. clear r. rewrite call_eq in *.
  pose proof (on_key_keeps_frame key s) as Hk.
  destruct (on_key key s) as [[e|[]] s1 t1]; cbn [store outcome] in *.
  - split; [eauto|]. split; [exact Hk|]. split; [exact Hshow|]. discriminate.
  - destruct (framed_outside_LAB vis s1 HL Hr) as ((e' & He') & Hd & Hv).
    destruct (framed vis s1) as [o2 s2 t2]. cbn [store outcome] in *.
    split; [eauto|]. split; [congruence|]. split; [exact Hshow|].
    intros _. exact Hv.
Qed.

End ColourSpace.

(** ** Keys the dispatch chain does not know *)

Section UnknownKeys.

Context {C : Collab} {args : Args}.

Lemma composite_implemented object_mask a b c d :
  composite object_mask a b c d <> inl NotImplementedError.
Proof.
  unfold composite, mask_assign, concatenate_axis1.
  destruct (same_shape _ _); [|discriminate].
  destruct (forallb _ _); discriminate.
Qed.

Lemma frame_image_implemented (s : State) cam mesh :
  frame_image s cam mesh <> inl NotImplementedError.
Proof.
  unfold frame_image. destruct LAB; cbn [negb]; [|discriminate].
  destruct (kpoints_3d s); [|discriminate].
  destruct (get_planes _ _ _). destruct (texture_src s); [|discriminate].
  destruct (warp_unwarp_planes _ _ _ _ _ _). apply composite_implemented.
Qed.

Lemma framed_implemented vis (s : State) :
  outcome (framed vis s) <> inl NotImplementedError.
Proof.
  unfold framed.
  destruct (normal_vertex_colors s) as [colors|]; [|discriminate].
  destruct (geometries s !! "mesh") as [mesh|]; [|discriminate].
  cbv zeta. destruct (can_render vis); [|discriminate].
  destruct (frame_image _ _ _) as [e|out] eqn:Hf; [|discriminate].
  cbn [outcome]. intros [= ->]. exact (frame_image_implemented _ _ _ Hf).
Qed.

Lemma on_key_implemented key (s : State) :
  In key recognized -> outcome (on_key key s) <> inl NotImplementedError.
Proof.
  intros Hin.
  destruct (key_cases key)
    as [->|[->|[->|[->|[->|[->|[->|[->|[->|[->|[->|H]]]]]]]]]]];
    try discriminate; [| | |contradiction].
  - rewrite on_key_dump_frame. destruct (F.trunc _).
    + destruct (dump_image s); discriminate.
    + cbn [outcome]. destruct (F.is_nan _); discriminate.
  - rewrite on_key_next_example. destruct (_ <? _); [discriminate|].
    destruct (dataset s !! _); discriminate.
  - rewrite on_key_next_model. cbv zeta.
    destruct (load_yaml_file _ !! _); discriminate.
Qed.

(** X21.  The callback raises [NotImplementedError] exactly for the keys
    outside the dispatch chain.  For such a key it raises before anything
    is read, written or shown: the state is returned as it was and no call
    is made, on any visualizer.  A key of the chain never raises it,
    whatever else its tick raises. *)
Theorem not_implemented_exactly_off_chain :
  forall key vis (s : State),
    (~ In key recognized ->
     Callbacks_call key vis s = mkRun (inl NotImplementedError) s [])
    /\ (In key recognized ->
        outcome (Callbacks_call key vis s) <> inl NotImplementedError)
    /\ (outcome (Callbacks_call key vis s) = inl NotImplementedError <->
        ~ In key recognized).
Proof.
  intros key vis s.
  assert (H1 : ~ In key recognized ->
               Callbacks_call key vis s = mkRun (inl NotImplementedError) s [])
    by (intros Hk; apply call_raises; now apply on_key_unknown).
  assert (H2 : In key recognized ->
               outcome (Callbacks_call key vis s) <> inl NotImplementedError).
  { intros Hk. rewrite call_eq. pose proof (on_key_implemented key s Hk) as Ho.
    destruct (on_key key s) as [[e|[]] s1 t1]; cbn [outcome] in *; [exact Ho|].
    pose proof (framed_implemented vis s1) as Hf.
    now destruct (framed vis s1). }
  split; [exact H1|]. split; [exact H2|]. split.
  - intros Ho Hk. exact (H2 Hk Ho).
  - intros Hk. now rewrite (H1 Hk).
Qed.

End UnknownKeys.

(** ** Instances of the session facts *)

Lemma startup_needs_the_guard_witness :
  can_render live_visualizer = true
  /\ exists e,
       outcome (run (C := toy) (args := toy_args) live_visualizer tt toy_dataset tt)
       = inl e.
Proof.
  split; [reflexivity|].
  destruct (startup_needs_the_guard (C := toy) (args := toy_args)
              live_visualizer tt toy_dataset tt eq_refl) as (e & He & _).
  exists e. exact He.
Defined.

Lemma startup_state_witness :
  can_render bare_visualizer = false
  /\ load_yaml_file (Collab := toy) "/cad/pascal_chair_cad_001.yaml" !! "kpoints_3d"
     = Some {[ "seat" := (0, 0, 0)%float ]}
  /\ store (run (C := toy) (args := toy_args) bare_visualizer tt toy_dataset tt)
     = toy_start
  /\ trace (run (C := toy) (args := toy_args) bare_visualizer tt toy_dataset tt)
     = [UpdateGeometry; UpdateGeometry; UpdateGeometry].
Proof.
  assert (H1 : can_render bare_visualizer = false) by reflexivity.
  assert (H2 : load_yaml_file (Collab := toy)
                 (path_join (CAD_root (Args := toy_args))
                    (model_stem (arg_pascal_class (Args := toy_args)) 1 ++ ".yaml"))
                 !! "kpoints_3d"
               = Some {[ "seat" := (0, 0, 0)%float ]}) by reflexivity.
  split; [exact H1|]. split; [exact H2|].
  pose proof (startup_state (C := toy) (args := toy_args) bare_visualizer tt
                toy_dataset tt _ H1 H2) as H.
  cbv zeta in H. unfold toy_dataset in H |- *. rewrite H.
  split; vm_compute; reflexivity.
Defined.

Lemma next_model_fails_after_moving_the_index_witness :
  let s := init_state (C := blank_toy) (args := toy_args) tt [] tt in
  load_yaml_file (Collab := blank_toy) "/cad/pascal_chair_cad_001.yaml" !! "kpoints_3d"
  = None
  /\ cad_idx (store (Callbacks_call (C := blank_toy) (args := toy_args) next_model
                       live_visualizer s)) = 1
  /\ geometries (store (Callbacks_call (C := blank_toy) (args := toy_args) next_model
                          live_visualizer s)) = ∅.
Proof.
  intros s.
  assert (H : load_yaml_file (Collab := blank_toy)
                (path_join (CAD_root (Args := toy_args))
                   (model_stem (pascal_class s) (next_cad (cad_idx s)) ++ ".yaml"))
                !! "kpoints_3d" = None) by reflexivity.
  split; [reflexivity|].
  rewrite (next_model_fails_after_moving_the_index (C := blank_toy) (args := toy_args)
             live_visualizer s H).
  split; reflexivity.
Defined.

Lemma dump_name_uses_unclamped_pitch_witness :
  dump_image toy_shown = Some toy_frame
  /\ F.trunc (radius toy_shown) = Some 7
  /\ (90 - angle_y toy_shown
      = pascal_el (camera (C := toy) toy_shown)
      <-> -90 <= angle_y toy_shown <= 90).
Proof.
  assert (H1 : dump_image toy_shown = Some toy_frame) by (vm_compute; reflexivity).
  assert (H2 : F.trunc (radius toy_shown) = Some 7) by (vm_compute; reflexivity).
  split; [exact H1|]. split; [exact H2|].
  exact (proj2 (dump_name_uses_unclamped_pitch (C := toy) (args := toy_args)
                  live_visualizer toy_shown toy_frame 7 H1 H2)).
Defined.

Lemma only_dump_frame_writes_files_witness :
  rotate_right <> dump_frame
  /\ In UpdateGeometry
       (trace (Callbacks_call (C := toy) (args := toy_args) rotate_right
                 live_visualizer toy_shown))
  /\ ~ touches_files UpdateGeometry.
Proof.
  assert (H1 : rotate_right <> dump_frame) by (vm_compute; discriminate).
  assert (H2 : In UpdateGeometry
                 (trace (Callbacks_call (C := toy) (args := toy_args) rotate_right
                           live_visualizer toy_shown))).
  { vm_compute. left. reflexivity. }
  split; [exact H1|]. split; [exact H2|].
  exact (only_dump_frame_writes_files (C := toy) (args := toy_args) rotate_right
           live_visualizer toy_shown UpdateGeometry H1 H2).
Defined.

Lemma dump_index_reads_back_witness :
  0 <= 12 /\ read_digits 0 (dump_name 12 0 90 7) = 12%N.
Proof.
  assert (H : 0 <= 12) by lia.
  split; [exact H|].
  exact (proj1 (dump_index_reads_back 12 0 90 7 H)).
Defined.

Lemma no_dump_is_overwritten_witness :
  0 <= dump_id toy_shown
  /\ NoDup (written (concat (traces (C := toy) (args := toy_args) live_visualizer
                               [dump_frame; rotate_right; dump_frame] toy_shown))).
Proof.
  assert (H : 0 <= dump_id toy_shown) by (vm_compute; discriminate).
  split; [exact H|].
  exact (no_dump_is_overwritten (C := toy) (args := toy_args) live_visualizer
           [dump_frame; rotate_right; dump_frame] toy_shown H).
Defined.

Lemma no_frame_outside_LAB_witness :
  LAB (Args := rgb_args) = false
  /\ can_render live_visualizer = true
  /\ outcome (Callbacks_call (C := toy) (args := rgb_args) rotate_right
                live_visualizer toy_start)
     = inl (ValueError "Released model was trained in LAB space.")
  /\ dump_image (store (Callbacks_call (C := toy) (args := rgb_args) rotate_right
                          live_visualizer toy_start)) = None.
Proof.
  assert (H1 : LAB (Args := rgb_args) = false) by reflexivity.
  assert (H2 : can_render live_visualizer = true) by reflexivity.
  split; [exact H1|]. split; [exact H2|].
  destruct (no_frame_outside_LAB (C := toy) (args := rgb_args) rotate_right
              live_visualizer toy_start H1 H2) as (_ & Hd & _ & Hv).
  split.
  - apply Hv; [reflexivity| |]; vm_compute; eauto.
  - rewrite Hd. vm_compute. reflexivity.
Defined.

Lemma camera_ranges_and_saturation_witness :
  90 <= angle_y toy_start
  /\ angle_y (tick (C := toy) (args := toy_args) live_visualizer toy_start rotate_up) = 95
  /\ camera (C := toy) (tick (C := toy) (args := toy_args) live_visualizer toy_start
                          rotate_up)
     = camera (C := toy) toy_start.
Proof.
  assert (H0 : angle_y toy_start = 90) by (vm_compute; reflexivity).
  assert (H : 90 <= angle_y toy_start) by (rewrite H0; lia).
  split; [exact H|].
  destruct (camera_ranges_and_saturation (C := toy) (args := toy_args)
              live_visualizer toy_start) as (_ & _ & Hs & _).
  destruct (Hs H) as [Ha Hc].
  split; [rewrite Ha, H0; reflexivity|exact Hc].
Defined.
